(** * Campus wellness backend (server.js over schema.sql)

    A shallow embedding of the Express handlers of [server.js] and of the
    relational store they talk to through [pool.execute] / [pool.query],
    followed by the properties of the appointment lifecycle and of the
    habit-log reconciliation.

    Layout:
    - JavaScript values as they arrive in [req.body], [req.query] and
      [req.params], with the operators the handlers apply to them;
    - the tables of [schema.sql] and the SQL statements the handlers issue;
    - a state-and-exception monad for [await pool.execute(...)] inside
      [try { ... } catch (err) { ... }];
    - the handlers, in the order [server.js] registers them, and the
      router;
    - the theorems. *)

From Stdlib Require Import ZArith Ascii String List Lia.
From stdpp Require Import base option list sorting gmap strings pretty.

Open Scope string_scope.
Open Scope Z_scope.

Local Set Warnings "-register-all".

(** ** JavaScript values *)

(** What [express.json()] can put in a body field. Numbers are restricted
    to the integers ([JNum]) that a double holds exactly, of magnitude
    below 2^53; a field that is absent reads as [JUndefined]. *)
Inductive jsval : Type :=
  | JUndefined
  | JNull
  | JBool (b : bool)
  | JNum (n : Z)
  | JStr (s : string)
  | JArr (items : list jsval)
  | JObj (fields : list (string * jsval)).

(** [!v] is [negb (truthy v)]. *)
Definition truthy (v : jsval) : bool :=
  match v with
  | JUndefined | JNull => false
  | JBool b => b
  | JNum n => negb (n =? 0)
  | JStr s => negb (String.eqb s "")
  | JArr _ | JObj _ => true
  end.

(** [Array.isArray(v)] *)
Definition isArray (v : jsval) : bool :=
  match v with JArr _ => true | _ => false end.

(** [v ?? d] *)
Definition nullish (v d : jsval) : jsval :=
  match v with JUndefined | JNull => d | _ => v end.

(** [a || b] *)
Definition js_or (a b : jsval) : jsval := if truthy a then a else b.

(** [[s1, ..., sn].includes(v)] for an array literal of strings:
    SameValueZero against a string holds for that very string only. *)
Definition includes (literal : list string) (v : jsval) : bool :=
  match v with
  | JStr s => existsb (String.eqb s) literal
  | _ => false
  end.

(** [obj.field], and so each name of a destructuring [const { f } = obj]. *)
Definition field (obj : gmap string jsval) (name : string) : jsval :=
  default JUndefined (obj !! name).

(** The string a template literal [`${v}`] splices in. *)
Fixpoint to_string (v : jsval) : string :=
  match v with
  | JUndefined => "undefined"
  | JNull => "null"
  | JBool true => "true"
  | JBool false => "false"
  | JNum n => pretty n
  | JStr s => s
  | JArr items =>
      let element (x : jsval) : string :=
        match x with JUndefined | JNull => "" | _ => to_string x end in
      (fix join (l : list jsval) : string :=
         match l with
         | [] => ""
         | [x] => element x
         | x :: rest => element x +:+ "," +:+ join rest
         end) items
  | JObj _ => "[object Object]"
  end.

(** ** The relational store *)

(** *** Column values

    The store is MySQL in its default strict mode; it is an external
    collaborator of [server.js]. Its conversion of a bound parameter to a
    column value is modelled on integer numerals, ISO dates [YYYY-MM-DD]
    and times [HH:MM] or [HH:MM:SS]; the model reports any other parameter
    as a store error, and the theorems below stay within these formats. *)

Definition digit_of (c : ascii) : option Z :=
  let n := Z.of_nat (nat_of_ascii c) in
  if (48 <=? n) && (n <=? 57) then Some (n - 48) else None.

Fixpoint digits_value (acc : Z) (s : string) : option Z :=
  match s with
  | EmptyString => Some acc
  | String c rest =>
      match digit_of c with
      | Some d => digits_value (acc * 10 + d) rest
      | None => None
      end
  end.

Definition digits (s : string) : option Z :=
  match s with EmptyString => None | _ => digits_value 0 s end.

Definition numeral (s : string) : option Z :=
  match s with
  | String "-" rest => Z.opp <$> digits rest
  | _ => digits s
  end.

(** The number a parameter stands for when it meets an INT column. *)
Definition sql_number (v : jsval) : option Z :=
  match v with
  | JNum n => Some n
  | JStr s => numeral s
  | _ => None
  end.

(** [INT]: 32-bit signed; out of range is an error in strict mode. *)
Definition as_INT (v : jsval) : option Z :=
  match sql_number v with
  | Some n => if (-2147483648 <=? n) && (n <=? 2147483647) then Some n else None
  | None => None
  end.

(** A nullable column takes [null] as NULL. *)
Definition nullable {A} (conv : jsval → option A) (v : jsval) : option (option A) :=
  match v with
  | JNull => Some None
  | _ => Some <$> conv v
  end.

Definition as_TEXT (v : jsval) : option string :=
  match v with
  | JStr s => Some s
  | JNum n => Some (pretty n)
  | _ => None
  end.

(** [VARCHAR(n)]: longer data is an error in strict mode. *)
Definition as_VARCHAR (n : nat) (v : jsval) : option string :=
  match as_TEXT v with
  | Some s => if (String.length s <=? n)%nat then Some s else None
  | None => None
  end.

Record date : Type := Date { year : Z; month : Z; day : Z }.
Record time : Type := Time { hour : Z; minute : Z; second : Z }.

Global Instance date_eq_dec : EqDecision date.
Proof. solve_decision. Defined.
Global Instance time_eq_dec : EqDecision time.
Proof. solve_decision. Defined.

Definition leap_year (y : Z) : bool :=
  ((y mod 4 =? 0) && negb (y mod 100 =? 0)) || (y mod 400 =? 0).

Definition days_in_month (y m : Z) : Z :=
  if m =? 2 then (if leap_year y then 29 else 28)
  else if (m =? 4) || (m =? 6) || (m =? 9) || (m =? 11) then 30
  else 31.

Definition parse_date (s : string) : option date :=
  if (String.length s =? 10)%nat
     && String.eqb (substring 4 1 s) "-" && String.eqb (substring 7 1 s) "-"
  then
    match digits (substring 0 4 s), digits (substring 5 2 s), digits (substring 8 2 s) with
    | Some y, Some m, Some d =>
        if (1000 <=? y) && (1 <=? m) && (m <=? 12) && (1 <=? d) && (d <=? days_in_month y m)
        then Some (Date y m d) else None
    | _, _, _ => None
    end
  else None.

Definition parse_time (s : string) : option time :=
  let hms (sec : Z) :=
    match digits (substring 0 2 s), digits (substring 3 2 s) with
    | Some h, Some m =>
        if (m <=? 59) && (sec <=? 59) then Some (Time h m sec) else None
    | _, _ => None
    end in
  if String.eqb (substring 2 1 s) ":" then
    if (String.length s =? 5)%nat then hms 0
    else if (String.length s =? 8)%nat && String.eqb (substring 5 1 s) ":" then
      match digits (substring 6 2 s) with
      | Some sec => hms sec
      | None => None
      end
    else None
  else None.

Definition as_DATE (v : jsval) : option date :=
  match v with JStr s => parse_date s | _ => None end.

Definition as_TIME (v : jsval) : option time :=
  match v with JStr s => parse_time s | _ => None end.

(** *** Tables of schema.sql *)

Module User.
Record row : Type := Row {
  user_id : Z;
  name : option string;
  email : option string;
  password : option string;
  phone : option string;
  role : option string }.
End User.

Module Student.
Record row : Type := Row {
  user_id : Z;
  std_id : option Z;
  department : option string;
  semester : option string }.
End Student.

Module Mood_log.
Record row : Type := Row {
  log_id : Z;
  std_id : Z;
  log_date : date;
  mood_rating : option Z;
  stress_level : option Z;
  energy_level : option Z;
  sleep_quantity : option Z;
  emotional_status : option string;
  notes : option string }.
End Mood_log.

Module Habit.
Record row : Type := Row {
  habit_id : Z;
  habit_name : string;
  category : option string }.
End Habit.

Module Habit_Log.
Record row : Type := Row {
  log_id : Z;
  std_id : Z;
  habit_id : Z;
  log_date : date;
  completed : Z }.
End Habit_Log.

Module Appointment.
Record row : Type := Row {
  appoint_id : Z;
  std_id : Z;
  appointment_type : string;
  professional_name : string;
  appointment_date : date;
  appointment_time : time;
  status : string;
  reason : option string;
  session_note : option string }.
End Appointment.

Module Notification.
Record row : Type := Row {
  n_id : Z;
  std_id : Z;
  msg : string;
  is_read : option Z;
  appointment_reminder : option Z;
  mood_reminder : option Z;
  habit_reminder : option Z;
  created_at : string }.
End Notification.

(** A table with an AUTO_INCREMENT key keeps its next key. *)
Record table (R : Type) : Type := Table { rows : list R; auto_increment : Z }.
Arguments Table {R} _ _.
Arguments rows {R} _.
Arguments auto_increment {R} _.

Record database : Type := Database {
  User : list User.row;
  Student : list Student.row;
  Mood_log : table Mood_log.row;
  Habit : table Habit.row;
  Habit_Log : table Habit_Log.row;
  Appointment : table Appointment.row;
  Notification : table Notification.row }.

Definition with_Mood_log (t : table Mood_log.row) (d : database) : database :=
  Database (User d) (Student d) t (Habit d) (Habit_Log d) (Appointment d) (Notification d).
Definition with_Habit_Log (t : table Habit_Log.row) (d : database) : database :=
  Database (User d) (Student d) (Mood_log d) (Habit d) t (Appointment d) (Notification d).
Definition with_Appointment (t : table Appointment.row) (d : database) : database :=
  Database (User d) (Student d) (Mood_log d) (Habit d) (Habit_Log d) t (Notification d).
Definition with_Notification (t : table Notification.row) (d : database) : database :=
  Database (User d) (Student d) (Mood_log d) (Habit d) (Habit_Log d) (Appointment d) t.

(** [INSERT] into a table with an AUTO_INCREMENT key. *)
Definition insert_row {R} (make : Z → R) (t : table R) : table R :=
  Table (rows t ++ [make (auto_increment t)]) (auto_increment t + 1).

(** [FOREIGN KEY (std_id) REFERENCES Student(std_id)] *)
Definition references_Student (d : database) (sid : Z) : bool :=
  bool_decide (Some sid ∈ Student.std_id <$> Student d).

(** [FOREIGN KEY (habit_id) REFERENCES Habit(habit_id)] *)
Definition references_Habit (d : database) (hid : Z) : bool :=
  bool_decide (hid ∈ Habit.habit_id <$> rows (Habit d)).

(** *** Orders of the ORDER BY clauses *)

Definition date_le (a b : date) : Prop :=
  year a < year b ∨
  (year a = year b ∧ (month a < month b ∨ (month a = month b ∧ day a ≤ day b))).

Definition date_lt (a b : date) : Prop :=
  year a < year b ∨
  (year a = year b ∧ (month a < month b ∨ (month a = month b ∧ day a < day b))).

Definition time_le (a b : time) : Prop :=
  hour a < hour b ∨
  (hour a = hour b ∧ (minute a < minute b ∨ (minute a = minute b ∧ second a ≤ second b))).

(** [ORDER BY log_date DESC] *)
Definition by_log_date_desc (a b : Mood_log.row) : Prop :=
  date_le (Mood_log.log_date b) (Mood_log.log_date a).

(** [ORDER BY habit_id] *)
Definition by_habit_id (a b : Habit.row) : Prop :=
  Habit.habit_id a ≤ Habit.habit_id b.

(** [ORDER BY appointment_date DESC, appointment_time DESC] *)
Definition by_date_desc_time_desc (a b : Appointment.row) : Prop :=
  date_lt (Appointment.appointment_date b) (Appointment.appointment_date a)
  ∨ (Appointment.appointment_date a = Appointment.appointment_date b
     ∧ time_le (Appointment.appointment_time b) (Appointment.appointment_time a)).

(** [ORDER BY appointment_time] *)
Definition by_appointment_time (a b : Appointment.row) : Prop :=
  time_le (Appointment.appointment_time a) (Appointment.appointment_time b).

(** [ORDER BY n_id DESC] *)
Definition by_n_id_desc (a b : Notification.row) : Prop :=
  Notification.n_id b ≤ Notification.n_id a.

Global Instance date_le_dec : RelDecision date_le.
Proof. unfold date_le. solve_decision. Defined.
Global Instance date_lt_dec : RelDecision date_lt.
Proof. unfold date_lt. solve_decision. Defined.
Global Instance time_le_dec : RelDecision time_le.
Proof. unfold time_le. solve_decision. Defined.
Global Instance by_log_date_desc_dec : RelDecision by_log_date_desc.
Proof. unfold by_log_date_desc. solve_decision. Defined.
Global Instance by_habit_id_dec : RelDecision by_habit_id.
Proof. unfold by_habit_id. solve_decision. Defined.
Global Instance by_date_desc_time_desc_dec : RelDecision by_date_desc_time_desc.
Proof. unfold by_date_desc_time_desc. solve_decision. Defined.
Global Instance by_appointment_time_dec : RelDecision by_appointment_time.
Proof. unfold by_appointment_time. solve_decision. Defined.
Global Instance by_n_id_desc_dec : RelDecision by_n_id_desc.
Proof. unfold by_n_id_desc. solve_decision. Defined.

(** *** The SQL statements of server.js

    A statement maps the database to an error message or to its result
    and the database it leaves. *)

Definition statement (A : Type) : Type := database → string + (A * database).

Definition ER_WRONG_VALUE : string := "ER_TRUNCATED_WRONG_VALUE".
Definition ER_NO_REFERENCED_ROW : string := "ER_NO_REFERENCED_ROW_2".

(** Convert one [?] parameter, or fail the statement. *)
Definition param {A B} (converted : option A) (k : A → string + B) : string + B :=
  match converted with
  | Some a => k a
  | None => inl ER_WRONG_VALUE
  end.

Notation "'param!' x ':=' c 'in' k" := (param c (λ x, k))
  (at level 10, x name, c at level 100, k at level 200, only parsing).

Definition foreign_key {B} (ok : bool) (k : string + B) : string + B :=
  if ok then k else inl ER_NO_REFERENCED_ROW.

(** [SELECT 1 AS result] *)
Definition select_1 : statement (list Z) := λ d, inr ([1], d).

(** [INSERT INTO Mood_log (std_id, log_date, mood_rating, stress_level,
    energy_level, sleep_quantity, emotional_status, notes)
    VALUES (?, ?, ?, ?, ?, ?, ?, ?)] *)
Definition insert_Mood_log
    (std_id log_date mood_rating stress_level energy_level sleep_quantity
       emotional_status notes : jsval) : statement unit := λ d,
  param! sid := as_INT std_id in
  param! day := as_DATE log_date in
  param! mood := nullable as_INT mood_rating in
  param! stress := nullable as_INT stress_level in
  param! energy := nullable as_INT energy_level in
  param! sleep := nullable as_INT sleep_quantity in
  param! emotion := nullable (as_VARCHAR 100) emotional_status in
  param! text := nullable as_TEXT notes in
  foreign_key (references_Student d sid)
    (inr (tt, with_Mood_log
                (insert_row (λ id, Mood_log.Row id sid day mood stress energy sleep emotion text)
                   (Mood_log d)) d)).

(** [SELECT * FROM Mood_log WHERE std_id = ? ORDER BY log_date DESC] *)
Definition select_Mood_log (std_id : jsval) : statement (list Mood_log.row) := λ d,
  param! sid := sql_number std_id in
  inr (merge_sort by_log_date_desc
         (filter (λ r, Mood_log.std_id r = sid) (rows (Mood_log d))), d).

(** [SELECT habit_id, habit_name, category FROM Habit ORDER BY habit_id] *)
Definition select_Habit : statement (list Habit.row) := λ d,
  inr (merge_sort by_habit_id (rows (Habit d)), d).

(** [SELECT habit_id, completed FROM Habit_Log WHERE std_id = ? AND log_date = ?];
    a result row is the pair (habit_id, completed). *)
Definition select_Habit_Log (std_id log_date : jsval) : statement (list (Z * Z)) := λ d,
  param! sid := sql_number std_id in
  param! day := as_DATE log_date in
  inr ((λ r, (Habit_Log.habit_id r, Habit_Log.completed r)) <$>
         filter (λ r, Habit_Log.std_id r = sid ∧ Habit_Log.log_date r = day)
           (rows (Habit_Log d)), d).

(** [DELETE FROM Habit_Log WHERE std_id = ? AND log_date = ?] *)
Definition delete_Habit_Log (std_id log_date : jsval) : statement unit := λ d,
  param! sid := sql_number std_id in
  param! day := as_DATE log_date in
  inr (tt, with_Habit_Log
             (Table (filter (λ r, ¬ (Habit_Log.std_id r = sid ∧ Habit_Log.log_date r = day))
                       (rows (Habit_Log d)))
                (auto_increment (Habit_Log d))) d).

(** [INSERT INTO Habit_Log (std_id, habit_id, log_date, completed)
    VALUES (?, ?, ?, 1)] *)
Definition insert_Habit_Log (std_id habit_id log_date : jsval) : statement unit := λ d,
  param! sid := as_INT std_id in
  param! hid := as_INT habit_id in
  param! day := as_DATE log_date in
  foreign_key (references_Student d sid)
    (foreign_key (references_Habit d hid)
       (inr (tt, with_Habit_Log
                   (insert_row (λ id, Habit_Log.Row id sid hid day 1) (Habit_Log d)) d))).

(** [INSERT INTO Appointment (std_id, appointment_type, professional_name,
    appointment_date, appointment_time, reason, status)
    VALUES (?, ?, ?, ?, ?, ?, 'Pending')] *)
Definition insert_Appointment
    (std_id appointment_type professional_name appointment_date
       appointment_time reason : jsval) : statement unit := λ d,
  param! sid := as_INT std_id in
  param! kind := as_VARCHAR 50 appointment_type in
  param! who := as_VARCHAR 100 professional_name in
  param! day := as_DATE appointment_date in
  param! clock := as_TIME appointment_time in
  param! why := nullable as_TEXT reason in
  foreign_key (references_Student d sid)
    (inr (tt, with_Appointment
                (insert_row (λ id, Appointment.Row id sid kind who day clock "Pending" why None)
                   (Appointment d)) d)).

(** [INSERT INTO Notification (std_id, msg, is_read, appointment_reminder,
    mood_reminder, habit_reminder) VALUES (?, ?, 0, 1, 0, 0)];
    [created_at] defaults to CURRENT_TIMESTAMP, passed as [stamp]. *)
Definition insert_Notification (stamp : string) (std_id msg : jsval) : statement unit := λ d,
  param! sid := as_INT std_id in
  param! text := as_VARCHAR 255 msg in
  foreign_key (references_Student d sid)
    (inr (tt, with_Notification
                (insert_row
                   (λ id, Notification.Row id sid text (Some 0) (Some 1) (Some 0) (Some 0) stamp)
                   (Notification d)) d)).

(** [SELECT * FROM Appointment WHERE std_id = ?
    ORDER BY appointment_date DESC, appointment_time DESC] *)
Definition select_Appointment_of (std_id : jsval) : statement (list Appointment.row) := λ d,
  param! sid := sql_number std_id in
  inr (merge_sort by_date_desc_time_desc
         (filter (λ r, Appointment.std_id r = sid) (rows (Appointment d))), d).

(** [SELECT * FROM Appointment WHERE appointment_date = ?
    ORDER BY appointment_time] *)
Definition select_Appointment_on (appointment_date : jsval) : statement (list Appointment.row) := λ d,
  param! day := as_DATE appointment_date in
  inr (merge_sort by_appointment_time
         (filter (λ r, Appointment.appointment_date r = day) (rows (Appointment d))), d).

(** [SELECT COUNT( * ) AS count FROM Student] *)
Definition count_Student : statement Z := λ d,
  inr (Z.of_nat (length (Student d)), d).

(** [SELECT COUNT( * ) AS count FROM User WHERE role = 'professional'] *)
Definition count_professionals : statement Z := λ d,
  inr (Z.of_nat (length (filter (λ u, User.role u = Some "professional") (User d))), d).

(** [SELECT COUNT( * ) AS count FROM Appointment] *)
Definition count_Appointment : statement Z := λ d,
  inr (Z.of_nat (length (rows (Appointment d))), d).

(** [SELECT * FROM Notification WHERE std_id = ? ORDER BY n_id DESC] *)
Definition select_Notification (std_id : jsval) : statement (list Notification.row) := λ d,
  param! sid := sql_number std_id in
  inr (merge_sort by_n_id_desc
         (filter (λ r, Notification.std_id r = sid) (rows (Notification d))), d).

Definition mark_read (r : Notification.row) : Notification.row :=
  Notification.Row (Notification.n_id r) (Notification.std_id r) (Notification.msg r)
    (Some 1) (Notification.appointment_reminder r) (Notification.mood_reminder r)
    (Notification.habit_reminder r) (Notification.created_at r).

(** [UPDATE Notification SET is_read = 1 WHERE n_id = ?] *)
Definition update_Notification_read (n_id : jsval) : statement unit := λ d,
  param! id := sql_number n_id in
  inr (tt, with_Notification
             (Table ((λ r, if decide (Notification.n_id r = id) then mark_read r else r)
                       <$> rows (Notification d))
                (auto_increment (Notification d))) d).

Definition set_status (s : string) (r : Appointment.row) : Appointment.row :=
  Appointment.Row (Appointment.appoint_id r) (Appointment.std_id r)
    (Appointment.appointment_type r) (Appointment.professional_name r)
    (Appointment.appointment_date r) (Appointment.appointment_time r)
    s (Appointment.reason r) (Appointment.session_note r).

(** [UPDATE Appointment SET status = ? WHERE appoint_id = ?] *)
Definition update_Appointment_status (status appoint_id : jsval) : statement unit := λ d,
  param! s := as_VARCHAR 30 status in
  param! id := sql_number appoint_id in
  inr (tt, with_Appointment
             (Table ((λ r, if decide (Appointment.appoint_id r = id) then set_status s r else r)
                       <$> rows (Appointment d))
                (auto_increment (Appointment d))) d).

(** ** Requests, responses and effects *)

(** What a handler runs against: the database behind [pool], the errors
    the store is going to raise on the coming statements for reasons of
    its own (one entry per statement, [Some message] for a failure; no
    entry is no failure), and the clock. *)
Record world : Type := World {
  db : database;
  faults : list (option string);
  now : string }.

(** None of the next [n] statements fails for a reason outside the
    statement. *)
Definition quiet (n : nat) (w : world) : Prop :=
  Forall (λ f, f = None) (take n (faults w)).

(** An [async] computation: it ends in a thrown [Error(message)] or in a
    value, and leaves a world. *)
Definition M (A : Type) : Type := world → (string + A) * world.

Global Instance M_ret : MRet M := λ A a w, (inr a, w).
Global Instance M_bind : MBind M := λ A B k m w,
  match m w with
  | (inl err, w') => (inl err, w')
  | (inr a, w') => k a w'
  end.

Definition throw {A} (message : string) : M A := λ w, (inl message, w).

(** [try { body } catch (err) { handler }] *)
Definition try_catch {A} (body : M A) (handler : string → M A) : M A := λ w,
  match body w with
  | (inl err, w') => handler err w'
  | (inr a, w') => (inr a, w')
  end.

(** Modelled from the spec: [pool] is the connection pool exported by
    [./db], which is not among the sources; the store behind it is the
    external collaborator of the specification. [await pool.execute(sql,
    params)] runs one statement: either it takes effect and yields its
    result, or the store raises an error (a persistence failure scheduled in
    [faults], or the statement's own), the error is thrown and the
    database stays as it was. *)
Definition pool_execute {A} (sql : statement A) : M A := λ w,
  match faults w with
  | Some message :: later => (inl message, World (db w) later (now w))
  | _ =>
      match sql (db w) with
      | inl message => (inl message, World (db w) (tail (faults w)) (now w))
      | inr (a, d) => (inr a, World d (tail (faults w)) (now w))
      end
  end.

(** [await pool.query(sql)] *)
Definition pool_query {A} (sql : statement A) : M A := pool_execute sql.

(** [for (const x of items) { await body(x) }] *)
Fixpoint for_of {A} (items : list A) (body : A → M unit) : M unit :=
  match items with
  | [] => mret tt
  | x :: rest => body x;; for_of rest body
  end.

Fixpoint before (sep : ascii) (s : string) : string :=
  match s with
  | EmptyString => EmptyString
  | String c rest => if Ascii.eqb c sep then EmptyString else String c (before sep rest)
  end.

(** [new Date().toISOString().split("T")[0]] *)
Definition today : M string := λ w, (inr (before "T" (now w)), w).

Record request : Type := Request {
  params : gmap string string;
  query : gmap string jsval;
  body : gmap string jsval }.

(** [req.params.name] *)
Definition param_of (req : request) (name : string) : jsval :=
  from_option JStr JUndefined (params req !! name).

(** The argument of [res.json(...)]; result rows stay typed. *)
Inductive payload : Type :=
  | Message (message : string)
  | Health (status database : string) (result : Z)
  | HealthError (status message : string)
  | MoodRows (rs : list Mood_log.row)
  | HabitRows (rs : list Habit.row)
  | HabitLogRows (rs : list (Z * Z))
  | AppointmentRows (rs : list Appointment.row)
  | NotificationRows (rs : list Notification.row)
  | Stats (students professionals appointments : Z)
  | NotFound.

Record response : Type := Response { code : Z; json : payload }.

(** A handler sends a response ([inr]) or its promise rejects with
    nothing sent ([inl]). *)
Definition handler : Type := request → M response.

(** ** The handlers of server.js *)

Definition get_health : handler := λ req,
  try_catch
    (rs ← pool_query select_1;
     match rs with
     | result :: _ => mret (Response 200 (Health "OK" "connected" result))
     | [] => throw "Cannot read properties of undefined (reading 'result')"
     end)
    (λ err, mret (Response 500 (HealthError "ERROR" err))).

Definition post_mood_log : handler := λ req,
  try_catch
    (let std_id := field (body req) "std_id" in
     let log_date := field (body req) "log_date" in
     let mood_rating := field (body req) "mood_rating" in
     let stress_level := field (body req) "stress_level" in
     let energy_level := field (body req) "energy_level" in
     let sleep_quantity := field (body req) "sleep_quantity" in
     let emotional_status := field (body req) "emotional_status" in
     let notes := field (body req) "notes" in
     if negb (truthy std_id) || negb (truthy log_date) then
       mret (Response 400 (Message "std_id and log_date are required"))
     else
       pool_execute
         (insert_Mood_log std_id log_date
            (nullish mood_rating JNull) (nullish stress_level JNull)
            (nullish energy_level JNull) (nullish sleep_quantity JNull)
            (nullish emotional_status JNull) (nullish notes JNull));;
       mret (Response 201 (Message "Mood log saved")))
    (λ err, mret (Response 500 (Message err))).

Definition get_mood_log : handler := λ req,
  try_catch
    (let std_id := param_of req "std_id" in
     rs ← pool_execute (select_Mood_log std_id);
     mret (Response 200 (MoodRows rs)))
    (λ err, mret (Response 500 (Message err))).

Definition get_habits : handler := λ req,
  try_catch
    (rs ← pool_query select_Habit;
     mret (Response 200 (HabitRows rs)))
    (λ err, mret (Response 500 (Message err))).

Definition get_habit_log : handler := λ req,
  try_catch
    (let std_id := param_of req "std_id" in
     day ← today;
     let log_date := js_or (field (query req) "log_date") (JStr day) in
     rs ← pool_execute (select_Habit_Log std_id log_date);
     mret (Response 200 (HabitLogRows rs)))
    (λ err, mret (Response 500 (Message err))).

Definition items_of (v : jsval) : list jsval :=
  match v with JArr items => items | _ => [] end.

Definition post_habit_log : handler := λ req,
  let std_id := field (body req) "std_id" in
  let habit_ids := field (body req) "habit_ids" in
  let log_date := field (body req) "log_date" in
  if negb (truthy std_id) || negb (isArray habit_ids) || negb (truthy log_date) then
    mret (Response 400 (Message "std_id, habit_ids[], and log_date are required"))
  else
    try_catch
      (pool_execute (delete_Habit_Log std_id log_date);;
       for_of (items_of habit_ids)
         (λ hid, pool_execute (insert_Habit_Log std_id hid log_date));;
       mret (Response 200 (Message "Habit log saved")))
      (λ err, mret (Response 500 (Message err))).

(** The store's CURRENT_TIMESTAMP, the default of [Notification.created_at]. *)
Definition current_timestamp : M string := λ w, (inr (now w), w).

Definition post_appointments : handler := λ req,
  try_catch
    (let std_id := field (body req) "std_id" in
     let appointment_type := field (body req) "appointment_type" in
     let professional_name := field (body req) "professional_name" in
     let appointment_date := field (body req) "appointment_date" in
     let appointment_time := field (body req) "appointment_time" in
     let reason := field (body req) "reason" in
     if negb (truthy std_id) || negb (truthy appointment_type)
        || negb (truthy professional_name) || negb (truthy appointment_date)
        || negb (truthy appointment_time) then
       mret (Response 400 (Message "Missing required appointment fields"))
     else
       pool_execute
         (insert_Appointment std_id appointment_type professional_name
            appointment_date appointment_time (nullish reason JNull));;
       stamp ← current_timestamp;
       pool_execute
         (insert_Notification stamp std_id
            (JStr ("Appointment booked with " +:+ to_string professional_name
                   +:+ " on " +:+ to_string appointment_date
                   +:+ " at " +:+ to_string appointment_time)));;
       mret (Response 201 (Message "Appointment created")))
    (λ err, mret (Response 500 (Message err))).

Definition get_appointments : handler := λ req,
  try_catch
    (let std_id := param_of req "std_id" in
     rs ← pool_execute (select_Appointment_of std_id);
     mret (Response 200 (AppointmentRows rs)))
    (λ err, mret (Response 500 (Message err))).

Definition get_professional_today : handler := λ req,
  try_catch
    (day ← today;
     rs ← pool_execute (select_Appointment_on (JStr day));
     mret (Response 200 (AppointmentRows rs)))
    (λ err, mret (Response 500 (Message err))).

Definition get_admin_stats : handler := λ req,
  try_catch
    (students ← pool_query count_Student;
     professionals ← pool_query count_professionals;
     appointments ← pool_query count_Appointment;
     mret (Response 200 (Stats students professionals appointments)))
    (λ err, mret (Response 500 (Message err))).

Definition get_notifications : handler := λ req,
  try_catch
    (let std_id := param_of req "std_id" in
     rs ← pool_execute (select_Notification std_id);
     mret (Response 200 (NotificationRows rs)))
    (λ err, mret (Response 500 (Message err))).

Definition put_notifications_read : handler := λ req,
  try_catch
    (let n_id := param_of req "n_id" in
     pool_execute (update_Notification_read n_id);;
     mret (Response 200 (Message "Notification marked as read")))
    (λ err, mret (Response 500 (Message err))).

(** [app.put("/appointments/status/:id", ...)]: no [try] around the
    statement. *)
Definition put_appointments_status_id : handler := λ req,
  let id := param_of req "id" in
  let status := field (body req) "status" in
  if negb (includes ["Approved"; "Cancelled"; "Completed"] status) then
    mret (Response 400 (Message "Invalid status"))
  else
    pool_execute (update_Appointment_status status id);;
    mret (Response 200 (Message "Status updated")).

(** [app.put("/appointments/status/:appoint_id", ...)] *)
Definition put_appointments_status_appoint_id : handler := λ req,
  try_catch
    (let appoint_id := param_of req "appoint_id" in
     let status := field (body req) "status" in
     let allowedStatuses := ["Approved"; "Cancelled"; "Completed"] in
     if negb (includes allowedStatuses status) then
       mret (Response 400 (Message "Invalid status value"))
     else
       pool_execute (update_Appointment_status status appoint_id);;
       mret (Response 200 (Message "Appointment status updated")))
    (λ err, mret (Response 500 (Message err))).

(** ** The router

    [app.get], [app.post] and [app.put] append a route; a request goes to
    the first route whose method and path match, and no handler of
    server.js passes it on. A path is given by its segments, spelled as
    the routes spell them. *)

Inductive method : Type := GET | POST | PUT.

Global Instance method_eq_dec : EqDecision method.
Proof. solve_decision. Defined.

(** A path segment of a route: literal, or [:name]. *)
Inductive segment : Type :=
  | Lit (s : string)
  | Par (name : string).

Fixpoint match_path (pattern : list segment) (path : list string)
    : option (gmap string string) :=
  match pattern, path with
  | [], [] => Some ∅
  | Lit s :: pattern', x :: path' =>
      if String.eqb s x then match_path pattern' path' else None
  | Par name :: pattern', x :: path' =>
      if String.eqb x "" then None
      else <[name := x]> <$> match_path pattern' path'
  | _, _ => None
  end.

Record route : Type := Route {
  verb : method;
  pattern : list segment;
  callback : handler }.

(** The two routes registered for PUT /appointments/status/... *)
Definition status_route_first : route :=
  Route PUT [Lit "appointments"; Lit "status"; Par "id"] put_appointments_status_id.
Definition status_route_second : route :=
  Route PUT [Lit "appointments"; Lit "status"; Par "appoint_id"]
    put_appointments_status_appoint_id.

Definition app : list route := [
  Route GET [Lit "health"] get_health;
  Route POST [Lit "mood-log"] post_mood_log;
  Route GET [Lit "mood-log"; Par "std_id"] get_mood_log;
  Route GET [Lit "habits"] get_habits;
  Route GET [Lit "habit-log"; Par "std_id"] get_habit_log;
  Route POST [Lit "habit-log"] post_habit_log;
  Route POST [Lit "appointments"] post_appointments;
  Route GET [Lit "appointments"; Par "std_id"] get_appointments;
  Route GET [Lit "professional"; Lit "today"] get_professional_today;
  Route GET [Lit "admin"; Lit "stats"] get_admin_stats;
  Route GET [Lit "notifications"; Par "std_id"] get_notifications;
  Route PUT [Lit "notifications"; Lit "read"; Par "n_id"] put_notifications_read;
  status_route_first;
  status_route_second
].

(** The handler a route runs on a request, when it matches. *)
Definition route_on (r : route) (m : method) (path : list string)
    (q b : gmap string jsval) : option (M response) :=
  if decide (verb r = m) then
    (λ ps, callback r (Request ps q b)) <$> match_path (pattern r) path
  else None.

Fixpoint dispatch (routes : list route) (m : method) (path : list string)
    (q b : gmap string jsval) : option (M response) :=
  match routes with
  | [] => None
  | r :: later =>
      match route_on r m path q b with
      | Some run => Some run
      | None => dispatch later m path q b
      end
  end.

(** The server on one request; no route is Express's 404. *)
Definition serve (m : method) (path : list string) (q b : gmap string jsval)
    : M response :=
  default (mret (Response 404 NotFound)) (dispatch app m path q b).

(** ** The seed data of schema.sql

    [CURDATE()] and CURRENT_TIMESTAMP at load time are arguments. *)
Definition seed (curdate : date) (stamp : string) : database :=
  Database
    [User.Row 1 (Some "Sample Student") (Some "sample@student.com") (Some "demo")
       (Some "0000000000") (Some "student")]
    [Student.Row 1 (Some 101) (Some "CSE") (Some "5")]
    (Table [Mood_log.Row 1 101 curdate (Some 4) (Some 2) (Some 3) (Some 2)
              (Some "Calm") (Some "Seed mood entry")] 2)
    (Table [Habit.Row 1 "Sleep before 12 AM" (Some "Sleep");
            Habit.Row 2 "Exercise / Walk" (Some "Fitness");
            Habit.Row 3 "Drink enough water" (Some "Lifestyle");
            Habit.Row 4 "Study 2 hours" (Some "Academic");
            Habit.Row 5 "Pray or Meditate" (Some "Spiritual")] 6)
    (Table [] 1)
    (Table [] 1)
    (Table [Notification.Row 1 101 "Welcome to Campus Wellness!" (Some 0) (Some 0)
              (Some 0) (Some 0) stamp] 2).

(** A freshly loaded store on 2026-01-06 with no failure ahead. *)
Definition fresh : world :=
  World (seed (Date 2026 1 6) "2026-01-06T09:00:00.000Z") [] "2026-01-06T09:00:00.000Z".

(** The seeded store with two more students, of [std_id] 0 and 102. *)
Definition campus : world :=
  let d := db fresh in
  World
    (Database
       (User d ++ [User.Row 2 (Some "Second Student") (Some "second@student.com")
                     (Some "demo") (Some "0000000001") (Some "student");
                   User.Row 3 (Some "Third Student") (Some "third@student.com")
                     (Some "demo") (Some "0000000002") (Some "student")])
       (Student d ++ [Student.Row 2 (Some 0) (Some "EEE") (Some "1");
                      Student.Row 3 (Some 102) (Some "BBA") (Some "3")])
       (Mood_log d) (Habit d) (Habit_Log d) (Appointment d) (Notification d))
    [] (now fresh).

(** [JSON.parse] of an object literal. *)
Definition object (fields : list (string * jsval)) : gmap string jsval :=
  list_to_map fields.

(** A store with bookings: three of student 101, on two dates, and one of
    student 102. *)
Definition booking (std_id : Z) (kind who day clock : string) (reason : list (string * jsval))
    : gmap string jsval :=
  object ([("std_id", JNum std_id); ("appointment_type", JStr kind);
           ("professional_name", JStr who); ("appointment_date", JStr day);
           ("appointment_time", JStr clock)] ++ reason).

Definition booked : world :=
  let book b w := snd (serve POST ["appointments"] ∅ b w) in
  book (booking 101 "Counselor" "Dr. Rahman" "2026-01-10" "16:00" [])
    (book (booking 101 "Doctor" "Dr. Karim" "2026-01-12" "09:30" [])
       (book (booking 102 "Nutritionist" "Ms. Sultana" "2026-01-11" "10:00:00" [])
          (book (booking 101 "Counselor" "Dr. Rahman" "2026-01-10" "14:00"
                   [("reason", JStr "Stress management")])
             campus))).

(** The fields POST /appointments requires. *)
Definition required_appointment_fields : list string :=
  ["std_id"; "appointment_type"; "professional_name"; "appointment_date";
   "appointment_time"].

(** What POST /habit-log is to leave in Habit_Log: the table after one
    INSERT per id, in order ... *)
Definition logged (sid : Z) (day : date) (ids : list Z)
    (t : table Habit_Log.row) : table Habit_Log.row :=
  fold_left (λ t h, insert_row (λ id, Habit_Log.Row id sid h day 1) t) ids t.

(** ... on top of the DELETE of that student's rows of the day. *)
Definition reconciled (sid : Z) (day : date) (ids : list Z) (d : database) : database :=
  with_Habit_Log
    (logged sid day ids
       (Table (filter (λ r, ¬ (Habit_Log.std_id r = sid ∧ Habit_Log.log_date r = day))
                 (rows (Habit_Log d)))
          (auto_increment (Habit_Log d)))) d.

(** The booked store on the morning of 2026-01-10. *)
Definition booked_on_the_10th : world :=
  World (db booked) [] "2026-01-10T08:00:00.000Z".

(** ** What a request can do to the database *)

(** Every run of the computation relates the database it finds to the one
    it leaves, whatever the store raises on the way. *)
Definition keeps (R : relation database) {A} (m : M A) : Prop :=
  ∀ w, R (db w) (db (snd (m w))).

Definition statement_keeps (R : relation database) {A} (sql : statement A) : Prop :=
  ∀ d a d', sql d = inr (a, d') → R d d'.

(** The rows are kept in place, each one stepping by [step], and rows may
    be added after them. *)
Definition grows {A} (step : relation A) (old new : list A) : Prop :=
  ∃ kept added, new = (kept ++ added)%list ∧ Forall2 step old kept.

(** The same appointment, but for its status. *)
Definition same_but_status (a a' : Appointment.row) : Prop :=
  a' = set_status (Appointment.status a') a.

(** The same notification, read or not. *)
Definition same_or_read (n n' : Notification.row) : Prop :=
  n' = n ∨ n' = mark_read n.

(** The four values of an appointment's status. *)
Definition known_status (s : string) : Prop :=
  s ∈ ["Pending"; "Approved"; "Cancelled"; "Completed"].

Definition statuses_known (d : database) : Prop :=
  Forall (λ a, known_status (Appointment.status a)) (rows (Appointment d)).

(** Relations between the database before and after a request. *)
Definition catalog_unchanged (d d' : database) : Prop :=
  User d' = User d ∧ Student d' = Student d ∧ Habit d' = Habit d.

Definition statuses_stay_known (d d' : database) : Prop :=
  statuses_known d → statuses_known d'.

Definition appointments_grow (d d' : database) : Prop :=
  grows same_but_status (rows (Appointment d)) (rows (Appointment d')).

Definition mood_logs_grow (d d' : database) : Prop :=
  grows eq (rows (Mood_log d)) (rows (Mood_log d')).

Definition notifications_grow (d d' : database) : Prop :=
  grows same_or_read (rows (Notification d)) (rows (Notification d')).

(** The rows of one (student, date) pair are the same in both databases. *)
Definition day_untouched (sid : Z) (day : date) (d d' : database) : Prop :=
  filter (λ r, Habit_Log.std_id r = sid ∧ Habit_Log.log_date r = day) (rows (Habit_Log d'))
  = filter (λ r, Habit_Log.std_id r = sid ∧ Habit_Log.log_date r = day) (rows (Habit_Log d)).

(** ** The recommendation of the student dashboard (client side)

    [initRecommendations] fetches GET /mood-log/${STUDENT_ID}, reads the
    JSON of the answer and writes a text into the page. A result row
    reaches the client with a number or [null] in each INT column, which
    is the [option Z] of the typed row. *)

Definition STUDENT_ID : Z := 101.

(** [x === n] for a column value [x] and a number literal [n]. *)
Definition strictly_equals (x : option Z) (n : Z) : bool :=
  match x with Some m => m =? n | None => false end.

(** [x <= n]: [null] converts to 0. *)
Definition at_most (x : option Z) (n : Z) : bool :=
  match x with Some m => m <=? n | None => 0 <=? n end.

(** [messages.join(sep)] *)
Fixpoint join (sep : string) (messages : list string) : string :=
  match messages with
  | [] => ""
  | [m] => m
  | m :: rest => m +:+ sep +:+ join sep rest
  end.

Definition stressed : string :=
  "You seem stressed. Consider reviewing exam stress management resources.".
Definition poor_sleep : string :=
  "Poor sleep detected. Try improving your sleep routine.".
Definition bad_day : string :=
  "It's okay to have a bad day. Take a short break and be kind to yourself.".
Definition doing_well : string :=
  "You're doing well! Keep maintaining your healthy habits.".

(** The callback on the parsed JSON: the text written to the box, or
    [None] when it returns without writing ([!logs.length]: an empty
    array, or an error object, which has no [length]). *)
Definition recommendation (logs : payload) : option string :=
  match logs with
  | MoodRows (latest :: _) =>
      let messages :=
        ((if strictly_equals (Mood_log.stress_level latest) 3 then [stressed] else [])
         ++ (if strictly_equals (Mood_log.sleep_quantity latest) 1 then [poor_sleep] else [])
         ++ (if at_most (Mood_log.mood_rating latest) 2 then [bad_day] else []))%list in
      Some (match messages with
            | [] => doing_well
            | _ => join " " messages
            end)
  | _ => None
  end.

(** The page with a recommendation box, loaded against the server. *)
Definition initRecommendations (w : world) : option string :=
  match fst (serve GET ["mood-log"; pretty STUDENT_ID] ∅ ∅ w) with
  | inr res => recommendation (json res)
  | inl _ => None
  end.

(** The [reason] column of a booking, read off the raw field of the body:
    NULL for an absent or [null] reason, the text for a string. *)
Inductive reason_column : jsval → option string → Prop :=
  | reason_absent : reason_column JUndefined None
  | reason_null : reason_column JNull None
  | reason_text (s : string) : reason_column (JStr s) (Some s).

(** A store with mood logs of several days: student 101 has the seeded
    log of 2026-01-06 and logs of the 8th and the 5th, saved in that
    order; student 102 has one of the 9th. *)
Definition mood (std_id : Z) (day : string) (rating : Z) : gmap string jsval :=
  object [("std_id", JNum std_id); ("log_date", JStr day); ("mood_rating", JNum rating)].

Definition mooded : world :=
  let log b w := snd (serve POST ["mood-log"] ∅ b w) in
  log (mood 101 "2026-01-05" 2)
    (log (mood 102 "2026-01-09" 5)
       (log (mood 101 "2026-01-08" 3) campus)).

(** * Properties *)

(** ** Conversions and operators on examples *)

Example to_string_num : to_string (JNum 101) = "101".
Proof. reflexivity. Qed.
Example as_DATE_iso : as_DATE (JStr "2026-01-06") = Some (Date 2026 1 6).
Proof. reflexivity. Qed.
Example as_DATE_feb30 : as_DATE (JStr "2026-02-30") = None.
Proof. reflexivity. Qed.
Example as_TIME_hm : as_TIME (JStr "14:00") = Some (Time 14 0 0).
Proof. reflexivity. Qed.
Example as_INT_param : as_INT (JStr "101") = Some 101 ∧ as_INT (JNum 101) = Some 101.
Proof. split; reflexivity. Qed.
Example template_literal :
  to_string (JArr [JNum 1; JNull; JStr "a"]) = "1,,a"
  ∧ to_string (JObj []) = "[object Object]".
Proof. split; reflexivity. Qed.
Example falsy_values :
  truthy <$> [JUndefined; JNull; JBool false; JNum 0; JStr ""; JStr "0"; JArr []]
  = [false; false; false; false; false; true; true].
Proof. reflexivity. Qed.

(** Case analysis on membership in a list literal. *)
Ltac each_of H :=
  repeat (apply elem_of_cons in H as [->|H]); [..|by apply elem_of_nil in H].

(** ** Routing *)

Lemma serve_post_habit_log q b :
  serve POST ["habit-log"] q b = post_habit_log (Request ∅ q b).
Proof. reflexivity. Qed.

Lemma serve_post_appointments q b :
  serve POST ["appointments"] q b = post_appointments (Request ∅ q b).
Proof. reflexivity. Qed.

Lemma serve_get_habit_log p q b :
  p ≠ "" →
  serve GET ["habit-log"; p] q b = get_habit_log (Request {["std_id" := p]} q b).
Proof. intros Hp. destruct p; [congruence | reflexivity]. Qed.

Lemma serve_get_appointments p q b :
  p ≠ "" →
  serve GET ["appointments"; p] q b = get_appointments (Request {["std_id" := p]} q b).
Proof. intros Hp. destruct p; [congruence | reflexivity]. Qed.

Lemma serve_put_appointments_status id q b :
  id ≠ "" →
  serve PUT ["appointments"; "status"; id] q b
  = put_appointments_status_id (Request {["id" := id]} q b).
Proof. intros Hid. destruct id; [congruence | reflexivity]. Qed.

Lemma param_of_singleton name x q b :
  param_of (Request {[name := x]} q b) name = JStr x.
Proof. unfold param_of. simpl. by rewrite lookup_singleton_eq. Qed.

Lemma numeral_nonempty p n : sql_number (JStr p) = Some n → p ≠ "".
Proof. intros H ->. discriminate. Qed.

(** ** JavaScript operators *)

Lemma includes_elem_of literal v :
  includes literal v = true ↔ v ∈ JStr <$> literal.
Proof.
  rewrite list_elem_of_fmap. destruct v; simpl;
    try (split; [discriminate | by intros (s & ? & _)]).
  rewrite existsb_exists. split.
  - intros (x & Hin & Heq). apply String.eqb_eq in Heq as ->.
    exists x. split; [done | by apply list_elem_of_In].
  - intros (x & [= ->] & Hin). exists x.
    split; [by apply list_elem_of_In | apply String.eqb_refl].
Qed.

Lemma allowed_status_iff v :
  includes ["Approved"; "Cancelled"; "Completed"] v = true
  ↔ v ∈ [JStr "Approved"; JStr "Cancelled"; JStr "Completed"].
Proof. apply (includes_elem_of ["Approved"; "Cancelled"; "Completed"]). Qed.

Lemma missing_is_falsy (b : gmap string jsval) name :
  b !! name = None → truthy (field b name) = false.
Proof. intros H. unfold field. by rewrite H. Qed.

(** ** The store raising no error of its own *)

Lemma pool_execute_quiet {A} (sql : statement A) n w :
  quiet (S n) w →
  pool_execute sql w =
    match sql (db w) with
    | inl message => (inl message, World (db w) (tail (faults w)) (now w))
    | inr (a, d) => (inr a, World d (tail (faults w)) (now w))
    end.
Proof.
  unfold quiet, pool_execute. destruct (faults w) as [|[e|] fs]; simpl; try done.
  intros H. by inversion H.
Qed.

Lemma quiet_next n w d :
  quiet (S n) w → quiet n (World d (tail (faults w)) (now w)).
Proof.
  unfold quiet. simpl. destruct (faults w) as [|f fs]; simpl.
  - by rewrite take_nil.
  - by inversion 1.
Qed.

Lemma quiet_S n w : quiet (S n) w → quiet n w.
Proof.
  unfold quiet. revert n. induction (faults w) as [|f fs IH]; intros n.
  - by rewrite !take_nil.
  - destruct n; simpl; [constructor|]. inversion 1; subst. constructor; auto.
Qed.

Lemma quiet_le n m w : (n ≤ m)%nat → quiet m w → quiet n w.
Proof.
  unfold quiet. intros Hle H. replace n with (n `min` m)%nat by lia.
  rewrite <- take_take. by apply Forall_take.
Qed.

Lemma quiet_drop n m w d :
  quiet (n + m) w → quiet m (World d (drop n (faults w)) (now w)).
Proof.
  unfold quiet. cbn [faults]. rewrite <- take_take_drop.
  by intros [_ H]%Forall_app.
Qed.

Lemma fresh_quiet n : quiet n fresh.
Proof. unfold quiet. simpl. rewrite take_nil. constructor. Qed.

(** ** Appointment status: validation *)

Lemma unlisted_status_is_rejected req w :
  field (body req) "status" ∉ [JStr "Approved"; JStr "Cancelled"; JStr "Completed"] →
  put_appointments_status_id req w
  = (inr (Response 400 (Message "Invalid status")), w).
Proof.
  intros Hout. unfold put_appointments_status_id.
  destruct (includes _ _) eqn:Hin; [|done].
  by apply allowed_status_iff in Hin.
Qed.

(** C3. PUT /appointments/status/:id with a status outside
    {Approved, Cancelled, Completed} (Pending, another string, a value
    that is no string, or no status at all) answers 400 "Invalid status"
    and leaves the world, hence every appointment row, as it was. *)
Theorem update_status_rejects_unlisted id q b w :
  id ≠ "" →
  field b "status" ∉ [JStr "Approved"; JStr "Cancelled"; JStr "Completed"] →
  serve PUT ["appointments"; "status"; id] q b w
  = (inr (Response 400 (Message "Invalid status")), w).
Proof.
  intros Hid Hout. rewrite serve_put_appointments_status by done.
  by apply unlisted_status_is_rejected.
Qed.

Lemma update_status_rejects_Pending :
  serve PUT ["appointments"; "status"; "7"] ∅ (object [("status", JStr "Pending")]) fresh
  = (inr (Response 400 (Message "Invalid status")), fresh).
Proof.
  apply update_status_rejects_unlisted; [done|].
  intros H%allowed_status_iff. vm_compute in H. discriminate.
Defined.

(** ** Appointment creation: validation *)

Lemma falsy_field_is_rejected name q b w :
  name ∈ required_appointment_fields →
  truthy (field b name) = false →
  post_appointments (Request ∅ q b) w
  = (inr (Response 400 (Message "Missing required appointment fields")), w).
Proof.
  intros Hname Hfalsy. unfold post_appointments, try_catch. simpl.
  assert (negb (truthy (field b "std_id")) || negb (truthy (field b "appointment_type"))
          || negb (truthy (field b "professional_name"))
          || negb (truthy (field b "appointment_date"))
          || negb (truthy (field b "appointment_time")) = true) as ->; [|done].
  unfold required_appointment_fields in Hname.
  each_of Hname; rewrite Hfalsy; simpl; by rewrite ?orb_true_r.
Qed.

(** C5. POST /appointments whose body lacks a required field
    ([appointment_time] or any of the other four) answers 400 and leaves
    the world as it was: no row is created in Appointment or in
    Notification. *)
Theorem create_missing_field_changes_nothing name q b w :
  name ∈ required_appointment_fields →
  b !! name = None →
  serve POST ["appointments"] q b w
  = (inr (Response 400 (Message "Missing required appointment fields")), w).
Proof.
  intros Hname Hmissing. rewrite serve_post_appointments.
  apply (falsy_field_is_rejected name); [done|]. by apply missing_is_falsy.
Qed.

Lemma create_without_time_changes_nothing :
  serve POST ["appointments"] ∅
    (object [("std_id", JNum 101); ("appointment_type", JStr "Counselor");
             ("professional_name", JStr "Dr. Rahman");
             ("appointment_date", JStr "2026-01-10")]) fresh
  = (inr (Response 400 (Message "Missing required appointment fields")), fresh).
Proof.
  apply (create_missing_field_changes_nothing "appointment_time").
  - unfold required_appointment_fields. set_solver.
  - vm_compute. reflexivity.
Defined.

(** ** Store failures *)

(** Inside [try], whatever is thrown is answered with 500 and the raw
    message. *)
Lemma try_catch_500_on_error (body : M response) err w w' :
  body w = (inl err, w') →
  try_catch body (λ e, mret (Response 500 (Message e))) w
  = (inr (Response 500 (Message err)), w').
Proof. unfold try_catch. by intros ->. Qed.

Lemma try_catch_always_answers (body : M response) (recover : string → response) w :
  ∃ r w', try_catch body (λ err, mret (recover err)) w = (inr r, w').
Proof. unfold try_catch. destruct (body w) as [[err|r] w']; by eauto. Qed.

(** Every handler but the first one of PUT /appointments/status always
    sends a response. *)
Lemma guarded_handlers_always_answer h req w :
  h ∈ [get_health; post_mood_log; get_mood_log; get_habits; get_habit_log;
       post_habit_log; post_appointments; get_appointments; get_professional_today;
       get_admin_stats; get_notifications; put_notifications_read;
       put_appointments_status_appoint_id] →
  ∃ r w', h req w = (inr r, w').
Proof.
  intros Hh. each_of Hh;
    try apply (try_catch_always_answers _ (λ err, Response 500 (Message err)));
    try apply (try_catch_always_answers _ (λ err, Response 500 (HealthError "ERROR" err))).
  unfold post_habit_log. cbv zeta. destruct (_ || _); [by eexists _, _|].
  apply (try_catch_always_answers _ (λ err, Response 500 (Message err))).
Qed.

(** A store failure on the statement of a read endpoint is answered with
    500 and the store's message. *)
Lemma read_failure_is_answered_500 h req d message later t :
  h ∈ [get_mood_log; get_habits; get_habit_log; get_appointments;
       get_professional_today; get_admin_stats; get_notifications] →
  h req (World d (Some message :: later) t)
  = (inr (Response 500 (Message message)), World d later t).
Proof.
  intros Hh. each_of Hh; reflexivity.
Qed.

(** The first status handler has no [try]: a failing UPDATE rejects its
    promise and nothing is sent. *)
Lemma unguarded_status_update_rejects req d message later t :
  field (body req) "status" ∈ [JStr "Approved"; JStr "Cancelled"; JStr "Completed"] →
  put_appointments_status_id req (World d (Some message :: later) t)
  = (inl message, World d later t).
Proof.
  intros Hin. unfold put_appointments_status_id.
  destruct (includes _ _) eqn:Hinc; [done|].
  apply allowed_status_iff in Hin. congruence.
Qed.

Lemma guarded_status_update_answers_500 req d message later t :
  field (body req) "status" ∈ [JStr "Approved"; JStr "Cancelled"; JStr "Completed"] →
  put_appointments_status_appoint_id req (World d (Some message :: later) t)
  = (inr (Response 500 (Message message)), World d later t).
Proof.
  intros Hin. unfold put_appointments_status_appoint_id, try_catch. simpl.
  destruct (includes _ _) eqn:Hinc; [done|].
  apply allowed_status_iff in Hin. congruence.
Qed.

(** C7. A failing UPDATE behind PUT /appointments/status/:id is not
    answered with 500 and the store's message: the request reaches the
    first handler, whose promise rejects with that message and sends no
    response, while the second handler of the same path, like the other
    endpoints, would have answered 500 with it. *)
Theorem status_update_failure_is_not_answered :
  let w := World (db fresh) [Some "ECONNRESET"] (now fresh) in
  let b := object [("status", JStr "Approved")] in
  fst (serve PUT ["appointments"; "status"; "1"] ∅ b w) = inl "ECONNRESET"
  ∧ fst (put_appointments_status_appoint_id (Request {["appoint_id" := "1"]} ∅ b) w)
    = inr (Response 500 (Message "ECONNRESET")).
Proof. split; reflexivity. Qed.

(** ** Habit log: repeated ids *)

(** C2. The rows of a (student, date) pair can repeat a
    (student, habit, date): POST /habit-log with [habit_ids = [1, 1]] on
    the seeded store answers 200 and leaves two rows for
    (101, 1, 2026-01-06). *)
Theorem repeated_habit_ids_leave_duplicate_rows :
  let b := object [("std_id", JNum 101); ("habit_ids", JArr [JNum 1; JNum 1]);
                   ("log_date", JStr "2026-01-06")] in
  let r := serve POST ["habit-log"] ∅ b fresh in
  let keys := (λ x, (Habit_Log.std_id x, Habit_Log.habit_id x, Habit_Log.log_date x))
                <$> rows (Habit_Log (db (snd r))) in
  fst r = inr (Response 200 (Message "Habit log saved"))
  ∧ keys = [(101, 1, Date 2026 1 6); (101, 1, Date 2026 1 6)]
  ∧ ¬ NoDup keys.
Proof.
  vm_compute. split; [done|]. split; [done|].
  intros H. apply NoDup_cons in H as [Hnotin _]. apply Hnotin. by left.
Qed.

(** ** Appointment status: an id that matches no row *)

Lemma bind_run {A B} (m : M A) (k : A → M B) w :
  (m ≫= k) w = match m w with
               | (inl err, w') => (inl err, w')
               | (inr a, w') => k a w'
               end.
Proof. reflexivity. Qed.

Lemma with_Appointment_same d :
  with_Appointment (Table (rows (Appointment d)) (auto_increment (Appointment d))) d = d.
Proof. by destruct d as [? ? ? ? ? [? ?] ?]. Qed.

Lemma set_status_no_match s n (rs : list Appointment.row) :
  n ∉ Appointment.appoint_id <$> rs →
  (λ r, if decide (Appointment.appoint_id r = n) then set_status s r else r) <$> rs = rs.
Proof.
  induction rs as [|r rs IH]; [done|]. rewrite !fmap_cons. intros Hn.
  apply not_elem_of_cons in Hn as [Hne Hn].
  rewrite IH by done. by rewrite decide_False by congruence.
Qed.

Lemma allowed_status_fits v :
  v ∈ [JStr "Approved"; JStr "Cancelled"; JStr "Completed"] →
  ∃ s, v = JStr s ∧ as_VARCHAR 30 v = Some s.
Proof.
  intros H. each_of H; by eexists.
Qed.

(** C6. PUT /appointments/status/:id with a listed status and an id that
    no appointment carries answers 200 "Status updated" when the store
    raises no error, and the database is the one it was: no row changed. *)
Theorem update_status_unknown_id_is_silent id n q b w :
  sql_number (JStr id) = Some n →
  n ∉ Appointment.appoint_id <$> rows (Appointment (db w)) →
  field b "status" ∈ [JStr "Approved"; JStr "Cancelled"; JStr "Completed"] →
  quiet 1 w →
  serve PUT ["appointments"; "status"; id] q b w
  = (inr (Response 200 (Message "Status updated")),
     World (db w) (tail (faults w)) (now w)).
Proof.
  intros Hid Hn Hstatus Hquiet.
  rewrite serve_put_appointments_status by eauto using numeral_nonempty.
  unfold put_appointments_status_id. cbv zeta. cbn [body].
  rewrite (proj2 (allowed_status_iff _) Hstatus). cbn [negb].
  rewrite bind_run, (pool_execute_quiet _ 0) by done.
  rewrite param_of_singleton. unfold update_Appointment_status.
  destruct (allowed_status_fits _ Hstatus) as (s & -> & ->).
  rewrite Hid. simpl. rewrite set_status_no_match by done.
  by rewrite with_Appointment_same.
Qed.

Lemma update_status_of_absent_appointment :
  serve PUT ["appointments"; "status"; "42"] ∅ (object [("status", JStr "Approved")]) booked
  = (inr (Response 200 (Message "Status updated")),
     World (db booked) (tail (faults booked)) (now booked)).
Proof.
  apply (update_status_unknown_id_is_silent "42" 42 ∅ _ booked).
  - reflexivity.
  - vm_compute. intros H. repeat (apply elem_of_cons in H as [H|H]; [discriminate|]).
    by apply elem_of_nil in H.
  - vm_compute. set_solver.
  - unfold quiet. vm_compute. constructor.
Defined.

(** ** Appointment status: the two handlers of one path *)

Lemma status_handlers_agree id q b w :
  match put_appointments_status_id (Request {["id" := id]} q b) w with
  | (inr r1, w1) =>
      code r1 ∈ [200; 400] ∧
      ∃ r2, put_appointments_status_appoint_id (Request {["appoint_id" := id]} q b) w
            = (inr r2, w1) ∧ code r2 = code r1
  | (inl err, w1) =>
      put_appointments_status_appoint_id (Request {["appoint_id" := id]} q b) w
      = (inr (Response 500 (Message err)), w1)
  end.
Proof.
  unfold put_appointments_status_id, put_appointments_status_appoint_id, try_catch.
  cbv zeta. rewrite !param_of_singleton. cbn [body].
  destruct (includes _ _); cbn [negb].
  - rewrite !bind_run.
    destruct (pool_execute _ w) as [[err|[]] w1]; [done|].
    split; [set_solver|]. by eexists.
  - split; [set_solver|]. by eexists.
Qed.

(** C10. PUT /appointments/status/<id> matches both registered routes and
    is served by the handler of the first one, so the second never runs.
    Where the first handler answers, with 400 on a status outside the list
    or with 200 after the UPDATE, the second would answer with the same
    status code and leave the same world (the message texts differ:
    "Invalid status" against "Invalid status value", "Status updated"
    against "Appointment status updated"). They part only when the UPDATE
    fails: the first rejects, the second answers 500. *)
Theorem status_route_served_by_first_handler id q b w :
  id ≠ "" →
  let path := ["appointments"; "status"; id] in
  let first := put_appointments_status_id (Request {["id" := id]} q b) in
  let second := put_appointments_status_appoint_id (Request {["appoint_id" := id]} q b) in
  route_on status_route_first PUT path q b = Some first
  ∧ route_on status_route_second PUT path q b = Some second
  ∧ serve PUT path q b = first
  ∧ match first w with
    | (inr r1, w1) =>
        code r1 ∈ [200; 400] ∧ ∃ r2, second w = (inr r2, w1) ∧ code r2 = code r1
    | (inl err, w1) => second w = (inr (Response 500 (Message err)), w1)
    end.
Proof.
  intros Hid. simpl. repeat split.
  - destruct id; [congruence | reflexivity].
  - destruct id; [congruence | reflexivity].
  - by apply serve_put_appointments_status.
  - apply status_handlers_agree.
Qed.

Lemma status_route_on_the_seeded_store :
  let b := object [("status", JStr "Completed")] in
  let path := ["appointments"; "status"; "1"] in
  let first := put_appointments_status_id (Request {["id" := "1"]} ∅ b) in
  let second := put_appointments_status_appoint_id (Request {["appoint_id" := "1"]} ∅ b) in
  route_on status_route_first PUT path ∅ b = Some first
  ∧ route_on status_route_second PUT path ∅ b = Some second
  ∧ serve PUT path ∅ b = first
  ∧ match first booked with
    | (inr r1, w1) =>
        code r1 ∈ [200; 400] ∧ ∃ r2, second booked = (inr r2, w1) ∧ code r2 = code r1
    | (inl err, w1) => second booked = (inr (Response 500 (Message err)), w1)
    end.
Proof.
  apply (status_route_served_by_first_handler "1" ∅ _ booked). done.
Defined.

Example status_handlers_on_the_booked_store :
  let b := object [("status", JStr "Completed")] in
  let first := put_appointments_status_id (Request {["id" := "1"]} ∅ b) booked in
  let second := put_appointments_status_appoint_id (Request {["appoint_id" := "1"]} ∅ b)
                  booked in
  fst first = inr (Response 200 (Message "Status updated"))
  ∧ fst second = inr (Response 200 (Message "Appointment status updated"))
  ∧ snd first = snd second
  ∧ Appointment.status <$> rows (Appointment (db (snd first)))
    = ["Completed"; "Pending"; "Pending"; "Pending"].
Proof. repeat split; reflexivity. Qed.

(** ** Listing a student's appointments *)

Lemma date_trichotomy (a b : date) : date_lt a b ∨ a = b ∨ date_lt b a.
Proof.
  destruct a as [y m d], b as [y' m' d']. unfold date_lt. simpl.
  destruct (Z.lt_trichotomy y y') as [?|[->|?]]; [lia| |lia].
  destruct (Z.lt_trichotomy m m') as [?|[->|?]]; [lia| |lia].
  destruct (Z.lt_trichotomy d d') as [?|[->|?]]; [lia| |lia].
  right. by left.
Qed.

Lemma time_le_total (a b : time) : time_le a b ∨ time_le b a.
Proof. unfold time_le. lia. Qed.

Global Instance by_date_desc_time_desc_total : Total by_date_desc_time_desc.
Proof.
  intros a b. unfold by_date_desc_time_desc.
  destruct (date_trichotomy (Appointment.appointment_date a) (Appointment.appointment_date b))
    as [?|[E|?]]; [by right; left| |by left; left].
  destruct (time_le_total (Appointment.appointment_time a) (Appointment.appointment_time b));
    [right|left]; right; by rewrite E.
Qed.

Global Instance by_date_desc_time_desc_trans : Transitive by_date_desc_time_desc.
Proof.
  intros [? ? ? ? [y1 m1 d1] [h1 n1 s1] ? ? ?] [? ? ? ? [y2 m2 d2] [h2 n2 s2] ? ? ?]
         [? ? ? ? [y3 m3 d3] [h3 n3 s3] ? ? ?].
  unfold by_date_desc_time_desc, date_lt, time_le. simpl.
  intros [H1|[E1 H1]] [H2|[E2 H2]]; simplify_eq;
    first [left; lia | right; split; [done | lia]].
Qed.

(** C8. GET /appointments/:std_id answers 200 with exactly the
    appointments of that student (a permutation of the rows whose std_id
    is the one asked for), every row placed before the rows of an earlier
    date and, on the same date, before the rows of an earlier or equal
    time; a student without appointments gets the empty list, not an
    error. The store is assumed to raise no error on the SELECT. *)
Theorem list_for_student_is_ordered p sid q b w :
  sql_number (JStr p) = Some sid →
  quiet 1 w →
  ∃ rs,
    serve GET ["appointments"; p] q b w
    = (inr (Response 200 (AppointmentRows rs)), World (db w) (tail (faults w)) (now w))
    ∧ StronglySorted by_date_desc_time_desc rs
    ∧ rs ≡ₚ filter (λ r, Appointment.std_id r = sid) (rows (Appointment (db w)))
    ∧ (sid ∉ Appointment.std_id <$> rows (Appointment (db w)) → rs = []).
Proof.
  intros Hp Hquiet.
  exists (merge_sort by_date_desc_time_desc
            (filter (λ r, Appointment.std_id r = sid) (rows (Appointment (db w))))).
  split; [|split; [|split]].
  - rewrite serve_get_appointments by eauto using numeral_nonempty.
    unfold get_appointments, try_catch. cbv zeta.
    rewrite bind_run, (pool_execute_quiet _ 0) by done.
    rewrite param_of_singleton. unfold select_Appointment_of. by rewrite Hp.
  - apply (StronglySorted_merge_sort _).
  - apply merge_sort_Permutation.
  - intros Hnone.
    assert (filter (λ r, Appointment.std_id r = sid) (rows (Appointment (db w))) = []) as ->;
      [|done].
    induction (rows (Appointment (db w))) as [|r rs IH]; [done|].
    rewrite fmap_cons in Hnone. apply not_elem_of_cons in Hnone as [Hne Hnone].
    rewrite filter_cons_False by congruence. auto.
Qed.

(** ** Appointment creation *)

Lemma length_append (s t : string) :
  String.length (s +:+ t) = (String.length s + String.length t)%nat.
Proof. induction s as [|c s IH]; simpl; [done | by rewrite IH]. Qed.

Lemma as_VARCHAR_to_string k v s :
  as_VARCHAR k v = Some s → to_string v = s ∧ (String.length s ≤ k)%nat.
Proof.
  unfold as_VARCHAR. destruct (as_TEXT v) as [s'|] eqn:Htext; [|done].
  destruct (Nat.leb_spec (String.length s') k); [|done].
  intros [= <-]. split; [|done]. by destruct v; simplify_eq/=.
Qed.

Lemma as_DATE_length v d :
  as_DATE v = Some d → ∃ s, v = JStr s ∧ String.length s = 10%nat.
Proof.
  destruct v; try done. simpl. unfold parse_date.
  destruct (Nat.eqb_spec (String.length s) 10); [|done]. eauto.
Qed.

Lemma as_TIME_length v t :
  as_TIME v = Some t → ∃ s, v = JStr s ∧ (String.length s ≤ 8)%nat.
Proof.
  destruct v; try done. simpl. unfold parse_time. intros H. exists s. split; [done|].
  destruct (String.eqb _ ":"); [|done].
  destruct (Nat.eqb_spec (String.length s) 5); [lia|].
  destruct (Nat.eqb_spec (String.length s) 8); [lia|done].
Qed.

Lemma booking_message_fits name day clock who d t :
  as_VARCHAR 100 name = Some who → as_DATE day = Some d → as_TIME clock = Some t →
  let text := "Appointment booked with " +:+ to_string name
              +:+ " on " +:+ to_string day +:+ " at " +:+ to_string clock in
  as_VARCHAR 255 (JStr text) = Some text.
Proof.
  intros [-> Hwho]%as_VARCHAR_to_string (s1 & -> & Hs1)%as_DATE_length
         (s2 & -> & Hs2)%as_TIME_length. simpl.
  unfold as_VARCHAR. simpl as_TEXT. cbv iota.
  destruct (Nat.leb_spec (String.length ("Appointment booked with " +:+ who +:+ " on "
                            +:+ s1 +:+ " at " +:+ s2)) 255) as [|Hlong]; [done|].
  rewrite !length_append in Hlong. simpl in Hlong. lia.
Qed.

Lemma required_fields_present b :
  Forall (λ name, truthy (field b name) = true) required_appointment_fields →
  negb (truthy (field b "std_id")) || negb (truthy (field b "appointment_type"))
  || negb (truthy (field b "professional_name"))
  || negb (truthy (field b "appointment_date"))
  || negb (truthy (field b "appointment_time")) = false.
Proof.
  unfold required_appointment_fields. rewrite !Forall_cons.
  by intros (-> & -> & -> & -> & -> & _).
Qed.

Lemma post_appointments_run q b w sid kind who day clock why :
  Forall (λ name, truthy (field b name) = true) required_appointment_fields →
  as_INT (field b "std_id") = Some sid →
  as_VARCHAR 50 (field b "appointment_type") = Some kind →
  as_VARCHAR 100 (field b "professional_name") = Some who →
  as_DATE (field b "appointment_date") = Some day →
  as_TIME (field b "appointment_time") = Some clock →
  nullable as_TEXT (nullish (field b "reason") JNull) = Some why →
  references_Student (db w) sid = true →
  quiet 2 w →
  post_appointments (Request ∅ q b) w
  = (inr (Response 201 (Message "Appointment created")),
     World
       (with_Notification
          (insert_row
             (λ id, Notification.Row id sid
                      ("Appointment booked with " +:+ to_string (field b "professional_name")
                       +:+ " on " +:+ to_string (field b "appointment_date")
                       +:+ " at " +:+ to_string (field b "appointment_time"))
                      (Some 0) (Some 1) (Some 0) (Some 0) (now w))
             (Notification (db w)))
          (with_Appointment
             (insert_row
                (λ id, Appointment.Row id sid kind who day clock "Pending" why None)
                (Appointment (db w)))
             (db w)))
       (tail (tail (faults w))) (now w)).
Proof.
  intros Hpresent Hsid Hkind Hwho Hday Hclock Hwhy Hstudent Hquiet.
  unfold post_appointments, try_catch. cbv zeta. cbn [body].
  rewrite (required_fields_present _ Hpresent).
  rewrite bind_run, (pool_execute_quiet _ 1) by done.
  unfold insert_Appointment. rewrite Hsid, Hkind, Hwho, Hday, Hclock, Hwhy.
  cbn [param]. rewrite Hstudent. cbn [foreign_key].
  rewrite bind_run. unfold current_timestamp.
  rewrite bind_run, (pool_execute_quiet _ 0) by (by apply quiet_next).
  unfold insert_Notification. cbn [db now faults]. rewrite Hsid.
  rewrite (booking_message_fits _ _ _ _ _ _ Hwho Hday Hclock).
  cbn [param].
  replace (references_Student _ sid) with true by (by rewrite <- Hstudent).
  reflexivity.
Qed.

(** C4, as stated, fails where the handler's guard takes a field that is
    present for a missing one. All five fields are in the body, student 0
    is enrolled and the store raises no error, yet POST /appointments
    with [std_id] 0 answers 400 and creates no row. *)
Lemma create_for_student_0_is_refused :
  let b := booking 0 "Counselor" "Dr. Rahman" "2026-01-10" "14:00" [] in
  let r := serve POST ["appointments"] ∅ b campus in
  Forall (λ name, is_Some (b !! name)) required_appointment_fields
  ∧ references_Student (db campus) 0 = true
  ∧ quiet 2 campus
  ∧ r = (inr (Response 400 (Message "Missing required appointment fields")), campus)
  ∧ fst r ≠ inr (Response 201 (Message "Appointment created"))
  ∧ rows (Appointment (db (snd r))) = rows (Appointment (db campus))
  ∧ rows (Notification (db (snd r))) = rows (Notification (db campus)).
Proof.
  cbv zeta. split; [|split; [|split; [|split; [|split; [|split]]]]].
  - unfold required_appointment_fields.
    repeat (constructor; [by vm_compute; eexists|]). constructor.
  - reflexivity.
  - unfold quiet. simpl. constructor.
  - reflexivity.
  - vm_compute. discriminate.
  - reflexivity.
  - reflexivity.
Qed.

Lemma string_fits_VARCHAR n s :
  (String.length s ≤ n)%nat → as_VARCHAR n (JStr s) = Some s.
Proof.
  intros Hlen. unfold as_VARCHAR. cbn [as_TEXT].
  by destruct (Nat.leb_spec (String.length s) n); [|lia].
Qed.

Lemma reason_column_stored v why :
  reason_column v why → nullable as_TEXT (nullish v JNull) = Some why.
Proof. by intros []. Qed.

(** C4, as the code has it. POST /appointments whose five required fields
    are truthy (present, and neither 0 nor the empty string) answers 201
    and appends exactly one row to Appointment, with status Pending, the
    student's id and the reason given (NULL when there is none), and
    exactly one row to Notification, for the same student, whose message
    names the professional, the date and the time. The store is assumed
    to accept the two INSERTs: the id is an INT, type and name are
    strings that fit their columns, date and time are in ISO form, the
    student exists, and no error is raised. *)
Theorem create_adds_one_appointment_and_one_notification
    q b w sid kind who on_ at_ day clock why :
  Forall (λ name, truthy (field b name) = true) required_appointment_fields →
  as_INT (field b "std_id") = Some sid →
  field b "appointment_type" = JStr kind → (String.length kind ≤ 50)%nat →
  field b "professional_name" = JStr who → (String.length who ≤ 100)%nat →
  field b "appointment_date" = JStr on_ → parse_date on_ = Some day →
  field b "appointment_time" = JStr at_ → parse_time at_ = Some clock →
  reason_column (field b "reason") why →
  references_Student (db w) sid = true →
  quiet 2 w →
  let r := serve POST ["appointments"] q b w in
  let appointment :=
    Appointment.Row (auto_increment (Appointment (db w))) sid kind who day clock
      "Pending" why None in
  let notification :=
    Notification.Row (auto_increment (Notification (db w))) sid
      ("Appointment booked with " +:+ who +:+ " on " +:+ on_ +:+ " at " +:+ at_)
      (Some 0) (Some 1) (Some 0) (Some 0) (now w) in
  fst r = inr (Response 201 (Message "Appointment created"))
  ∧ rows (Appointment (db (snd r))) = (rows (Appointment (db w)) ++ [appointment])%list
  ∧ rows (Notification (db (snd r))) = (rows (Notification (db w)) ++ [notification])%list
  ∧ Appointment.status appointment = "Pending"
  ∧ Appointment.std_id appointment = sid
  ∧ Notification.std_id notification = sid.
Proof.
  intros Hpresent Hsid Hkind Hkind_fits Hwho Hwho_fits Hon Hday Hat Hclock Hwhy
         Hstudent Hquiet. cbv zeta.
  rewrite serve_post_appointments.
  rewrite (post_appointments_run q b w sid kind who day clock why); try done.
  - rewrite Hwho, Hon, Hat. by repeat split.
  - rewrite Hkind. by apply string_fits_VARCHAR.
  - rewrite Hwho. by apply string_fits_VARCHAR.
  - by rewrite Hon.
  - by rewrite Hat.
  - by apply reason_column_stored.
Qed.

Lemma create_on_the_seeded_store :
  let b := object [("std_id", JNum 101); ("appointment_type", JStr "Counselor");
                   ("professional_name", JStr "Dr. Rahman");
                   ("appointment_date", JStr "2026-01-10");
                   ("appointment_time", JStr "14:00")] in
  let r := serve POST ["appointments"] ∅ b fresh in
  fst r = inr (Response 201 (Message "Appointment created"))
  ∧ rows (Appointment (db (snd r)))
    = [Appointment.Row 1 101 "Counselor" "Dr. Rahman" (Date 2026 1 10) (Time 14 0 0)
         "Pending" None None]
  ∧ rows (Notification (db (snd r)))
    = (rows (Notification (db fresh))
       ++ [Notification.Row 2 101 "Appointment booked with Dr. Rahman on 2026-01-10 at 14:00"
             (Some 0) (Some 1) (Some 0) (Some 0) "2026-01-06T09:00:00.000Z"])%list.
Proof.
  intros b r.
  destruct (create_adds_one_appointment_and_one_notification ∅ b fresh 101
              "Counselor" "Dr. Rahman" "2026-01-10" "14:00" (Date 2026 1 10) (Time 14 0 0)
              None)
    as (H201 & Happointment & Hnotification & _);
    [ repeat constructor | reflexivity | reflexivity | cbn; lia | reflexivity | cbn; lia
    | reflexivity | reflexivity | reflexivity | reflexivity | constructor | reflexivity
    | apply fresh_quiet | ].
  split; [exact H201|]. split; [exact Happointment | exact Hnotification].
Defined.

Example create_with_a_reason :
  let b := booking 101 "Counselor" "Dr. Rahman" "2026-01-10" "14:00"
             [("reason", JStr "Stress management")] in
  Appointment.reason <$> rows (Appointment (db (snd (serve POST ["appointments"] ∅ b fresh))))
  = [Some "Stress management"].
Proof. reflexivity. Qed.

(** ** Habit log reconciliation *)

Lemma as_INT_number v n : as_INT v = Some n → sql_number v = Some n.
Proof.
  unfold as_INT. destruct (sql_number v) as [m|]; [|done].
  by destruct (_ && _); intros [= ->].
Qed.

Lemma as_DATE_truthy v d : as_DATE v = Some d → truthy v = true.
Proof. intros (s & -> & Hlen)%as_DATE_length. by destruct s. Qed.

Lemma with_Habit_Log_same d :
  with_Habit_Log (Table (rows (Habit_Log d)) (auto_increment (Habit_Log d))) d = d.
Proof. by destruct d as [? ? ? ? [? ?] ? ?]. Qed.

Lemma tail_drop {A} n (l : list A) : drop n (tail l) = drop (S n) l.
Proof. destruct l; simpl; [by rewrite drop_nil | done]. Qed.

Lemma delete_then_select (l : list Habit_Log.row) sid day :
  filter (λ r, Habit_Log.std_id r = sid ∧ Habit_Log.log_date r = day)
    (filter (λ r, ¬ (Habit_Log.std_id r = sid ∧ Habit_Log.log_date r = day)) l) = [].
Proof.
  induction l as [|r l IH]; [done|].
  destruct (decide (Habit_Log.std_id r = sid ∧ Habit_Log.log_date r = day)) as [Hm|Hm].
  - rewrite filter_cons_False; [done|]. by intros H.
  - rewrite filter_cons_True by done. by rewrite filter_cons_False.
Qed.

(** Selecting a day after logging it: what was selected before, then one
    row per id. *)
Lemma logged_selected sid day ids t :
  filter (λ r, Habit_Log.std_id r = sid ∧ Habit_Log.log_date r = day)
    (rows (logged sid day ids t))
  = (filter (λ r, Habit_Log.std_id r = sid ∧ Habit_Log.log_date r = day) (rows t)
     ++ imap (λ i h, Habit_Log.Row (auto_increment t + Z.of_nat i) sid h day 1) ids)%list.
Proof.
  revert t. induction ids as [|h ids IH]; intros t.
  - simpl. by rewrite app_nil_r.
  - simpl logged. rewrite IH. cbn [insert_row rows auto_increment].
    rewrite filter_app, filter_cons_True, filter_nil by done.
    rewrite <- app_assoc. cbn [app imap]. rewrite Z.add_0_r.
    do 2 f_equal. apply imap_ext. intros i x _. simpl. f_equal. lia.
Qed.

Lemma insert_loop std_id log_date sid day hids ids w :
  as_INT std_id = Some sid →
  as_DATE log_date = Some day →
  Forall2 (λ v h, as_INT v = Some h) hids ids →
  ids = [] ∨ references_Student (db w) sid = true →
  Forall (λ h, references_Habit (db w) h = true) ids →
  quiet (length hids) w →
  for_of hids (λ hid, pool_execute (insert_Habit_Log std_id hid log_date)) w
  = (inr tt,
     World (with_Habit_Log (logged sid day ids (Habit_Log (db w))) (db w))
       (drop (length hids) (faults w)) (now w)).
Proof.
  intros Hsid Hday Hids. revert w.
  induction Hids as [|v h hids ids Hv Hids IH]; intros w Hstudent Hhabits Hquiet.
  - simpl. destruct w as [d fs t]. simpl.
    destruct d as [? ? ? ? [? ?] ? ?]. reflexivity.
  - apply Forall_cons in Hhabits as [Hhabit Hhabits].
    destruct Hstudent as [|Hstudent]; [done|].
    cbn [for_of length]. rewrite bind_run, (pool_execute_quiet _ (length hids)) by done.
    unfold insert_Habit_Log at 1. rewrite Hsid, Hv, Hday. cbn [param].
    rewrite Hstudent, Hhabit. cbn [foreign_key].
    rewrite IH; [|by right|done|by apply quiet_next]. cbn [db faults now].
    by rewrite tail_drop.
Qed.

Lemma post_habit_log_run q b w sid day hids ids :
  truthy (field b "std_id") = true →
  as_INT (field b "std_id") = Some sid →
  as_DATE (field b "log_date") = Some day →
  field b "habit_ids" = JArr hids →
  Forall2 (λ v h, as_INT v = Some h) hids ids →
  ids = [] ∨ references_Student (db w) sid = true →
  Forall (λ h, references_Habit (db w) h = true) ids →
  quiet (S (length hids)) w →
  post_habit_log (Request ∅ q b) w
  = (inr (Response 200 (Message "Habit log saved")),
     World (reconciled sid day ids (db w)) (drop (S (length hids)) (faults w)) (now w)).
Proof.
  intros Htruthy Hsid Hday Harr Hids Hstudent Hhabits Hquiet.
  unfold post_habit_log. cbv zeta. cbn [body].
  rewrite Htruthy, Harr, (as_DATE_truthy _ _ Hday). cbn [negb isArray orb items_of].
  unfold try_catch.
  rewrite bind_run, (pool_execute_quiet _ (length hids)) by done.
  unfold delete_Habit_Log at 1. rewrite (as_INT_number _ _ Hsid), Hday. cbn [param].
  rewrite bind_run.
  rewrite (insert_loop _ _ sid day hids ids); [|done..|by apply quiet_next].
  cbn [db faults now]. by rewrite tail_drop.
Qed.

Lemma get_habit_log_run p q b w sid day :
  sql_number (JStr p) = Some sid →
  as_DATE (field q "log_date") = Some day →
  quiet 1 w →
  get_habit_log (Request {["std_id" := p]} q b) w
  = (inr (Response 200
            (HabitLogRows
               ((λ r, (Habit_Log.habit_id r, Habit_Log.completed r)) <$>
                  filter (λ r, Habit_Log.std_id r = sid ∧ Habit_Log.log_date r = day)
                    (rows (Habit_Log (db w)))))),
     World (db w) (tail (faults w)) (now w)).
Proof.
  intros Hp Hday Hquiet. unfold get_habit_log, try_catch. cbv zeta.
  rewrite param_of_singleton. cbn [query]. rewrite bind_run. unfold today at 1.
  unfold js_or. rewrite (as_DATE_truthy _ _ Hday).
  rewrite bind_run, (pool_execute_quiet _ 0) by done.
  unfold select_Habit_Log. rewrite Hp, Hday. reflexivity.
Qed.

(** The rows of the day after a submission: one per id, in order. *)
Lemma reconciled_rows sid day ids d :
  filter (λ r, Habit_Log.std_id r = sid ∧ Habit_Log.log_date r = day)
    (rows (Habit_Log (reconciled sid day ids d)))
  = imap (λ i h, Habit_Log.Row (auto_increment (Habit_Log d) + Z.of_nat i) sid h day 1) ids.
Proof.
  unfold reconciled. cbn [with_Habit_Log Habit_Log].
  rewrite logged_selected. cbn [rows auto_increment].
  by rewrite delete_then_select, app_nil_l.
Qed.

Lemma imap_fmap_const {A B C} (f : nat → A → B) (g : B → C) (h : A → C) (l : list A) :
  (∀ i x, g (f i x) = h x) → g <$> imap f l = h <$> l.
Proof.
  intros Hgf. revert f Hgf. induction l as [|x l IH]; intros f Hgf; [done|].
  cbn [imap]. rewrite !fmap_cons, Hgf. f_equal. apply IH. intros i y. apply Hgf.
Qed.

Lemma reconciled_selected sid day ids d :
  (λ r, (Habit_Log.habit_id r, Habit_Log.completed r)) <$>
    filter (λ r, Habit_Log.std_id r = sid ∧ Habit_Log.log_date r = day)
      (rows (Habit_Log (reconciled sid day ids d)))
  = (λ h, (h, 1)) <$> ids.
Proof. rewrite reconciled_rows. by apply imap_fmap_const. Qed.

(** Ids that do not repeat leave rows that do not repeat. *)
Lemma distinct_ids_leave_distinct_rows sid day ids d :
  NoDup ids →
  NoDup ((λ r, (Habit_Log.std_id r, Habit_Log.habit_id r, Habit_Log.log_date r)) <$>
           filter (λ r, Habit_Log.std_id r = sid ∧ Habit_Log.log_date r = day)
             (rows (Habit_Log (reconciled sid day ids d)))).
Proof.
  intros Hids. rewrite reconciled_rows.
  rewrite (imap_fmap_const _ _ (λ h, (sid, h, day))) by done.
  apply NoDup_fmap_2; [|done]. by intros h h' [= ->].
Qed.

(** C1, as the code has it. When [std_id] is truthy and the store accepts
    the statements (the id and the date convert, the student and the
    habits exist, no error is raised), POST /habit-log with an array
    answers 200 and GET /habit-log/:std_id for the same student and date
    then answers 200 with rows whose habit ids are, as a set, the ids of
    the array, each with completed = 1. *)
Theorem habit_log_round_trip q0 b w p q sid day hids ids :
  truthy (field b "std_id") = true →
  as_INT (field b "std_id") = Some sid →
  as_DATE (field b "log_date") = Some day →
  field b "habit_ids" = JArr hids →
  Forall2 (λ v h, as_INT v = Some h) hids ids →
  references_Student (db w) sid = true →
  Forall (λ h, references_Habit (db w) h = true) ids →
  quiet (length hids + 2) w →
  sql_number (JStr p) = Some sid →
  field q "log_date" = field b "log_date" →
  let set := serve POST ["habit-log"] q0 b w in
  let get := serve GET ["habit-log"; p] q ∅ (snd set) in
  fst set = inr (Response 200 (Message "Habit log saved"))
  ∧ ∃ rs, fst get = inr (Response 200 (HabitLogRows rs))
          ∧ list_to_set rs.*1 =@{gset Z} list_to_set ids
          ∧ Forall (λ r, r.2 = 1) rs.
Proof.
  intros Htruthy Hsid Hday Harr Hids Hstudent Hhabits Hquiet Hp Hq. cbv zeta.
  rewrite serve_post_habit_log.
  rewrite (post_habit_log_run q0 b w sid day hids ids); try done; [|by right|].
  2: { apply (quiet_le _ (length hids + 2)); [lia | done]. }
  split; [done|]. cbn [snd].
  rewrite serve_get_habit_log by eauto using numeral_nonempty.
  rewrite (get_habit_log_run p q ∅ _ sid day); [|done|by rewrite Hq|]; cycle 1.
  { apply quiet_drop. by replace (S (length hids) + 1)%nat with (length hids + 2)%nat by lia. }
  cbn [fst db]. rewrite reconciled_selected.
  exists ((λ h, (h, 1)) <$> ids). split; [done|]. split.
  - by rewrite <- list_fmap_compose, list_fmap_id.
  - apply Forall_fmap. by apply Forall_true.
Qed.

Lemma habit_log_round_trip_on_the_seeded_store :
  let b := object [("std_id", JNum 101); ("habit_ids", JArr [JNum 1; JStr "3"]);
                   ("log_date", JStr "2026-01-06")] in
  let set := serve POST ["habit-log"] ∅ b fresh in
  let get := serve GET ["habit-log"; "101"] (object [("log_date", JStr "2026-01-06")]) ∅
               (snd set) in
  fst set = inr (Response 200 (Message "Habit log saved"))
  ∧ ∃ rs, fst get = inr (Response 200 (HabitLogRows rs))
          ∧ list_to_set rs.*1 =@{gset Z} list_to_set [1; 3]
          ∧ Forall (λ r, r.2 = 1) rs.
Proof.
  apply (habit_log_round_trip ∅ _ fresh "101" _ 101 (Date 2026 1 6)
           [JNum 1; JStr "3"] [1; 3]).
  - reflexivity.
  - reflexivity.
  - reflexivity.
  - reflexivity.
  - repeat constructor.
  - reflexivity.
  - repeat constructor.
  - apply fresh_quiet.
  - reflexivity.
  - reflexivity.
Defined.

(** C1, as stated, fails where the handler's guard [!std_id] takes the id
    for a missing one. Student 0 is enrolled, habit 1 exists and the store
    raises no error, yet POST /habit-log for student 0 answers 400 and
    stores nothing, so the GET that follows returns no row and not the
    set {1}. *)
Lemma habit_log_round_trip_fails_for_student_0 :
  let b := object [("std_id", JNum 0); ("habit_ids", JArr [JNum 1]);
                   ("log_date", JStr "2026-01-06")] in
  let set := serve POST ["habit-log"] ∅ b campus in
  let get := serve GET ["habit-log"; "0"] (object [("log_date", JStr "2026-01-06")]) ∅
               (snd set) in
  references_Student (db campus) 0 = true
  ∧ references_Habit (db campus) 1 = true
  ∧ quiet 3 campus
  ∧ set = (inr (Response 400 (Message "std_id, habit_ids[], and log_date are required")),
           campus)
  ∧ fst get = inr (Response 200 (HabitLogRows []))
  ∧ ¬ ∃ rs, fst get = inr (Response 200 (HabitLogRows rs))
            ∧ list_to_set rs.*1 =@{gset Z} list_to_set [1].
Proof.
  cbv zeta. split; [reflexivity|]. split; [reflexivity|].
  split; [unfold quiet; simpl; constructor|].
  split; [reflexivity|]. split; [reflexivity|].
  intros (rs & Hget & Hset). vm_compute in Hget. injection Hget as <-.
  assert (1 ∈@{gset Z} list_to_set [1]) as Hin by set_solver.
  rewrite <- Hset in Hin. set_solver.
Qed.

(** C9. POST /habit-log with the empty array is no validation error: with a
    truthy [std_id] and a store that accepts the DELETE it answers 200,
    no row of that (student, date) is left, and the GET for that day
    returns the empty list. *)
Theorem empty_submission_clears_the_day q0 b w p q sid day :
  truthy (field b "std_id") = true →
  as_INT (field b "std_id") = Some sid →
  as_DATE (field b "log_date") = Some day →
  field b "habit_ids" = JArr [] →
  quiet 2 w →
  sql_number (JStr p) = Some sid →
  field q "log_date" = field b "log_date" →
  let set := serve POST ["habit-log"] q0 b w in
  let get := serve GET ["habit-log"; p] q ∅ (snd set) in
  fst set = inr (Response 200 (Message "Habit log saved"))
  ∧ filter (λ r, Habit_Log.std_id r = sid ∧ Habit_Log.log_date r = day)
      (rows (Habit_Log (db (snd set)))) = []
  ∧ fst get = inr (Response 200 (HabitLogRows [])).
Proof.
  intros Htruthy Hsid Hday Harr Hquiet Hp Hq. cbv zeta.
  rewrite serve_post_habit_log.
  rewrite (post_habit_log_run q0 b w sid day [] []); try done; [|by left|].
  2: { by apply quiet_S. }
  split; [done|]. cbn [snd db]. split.
  - unfold reconciled. cbn [logged fold_left with_Habit_Log Habit_Log rows].
    apply delete_then_select.
  - rewrite serve_get_habit_log by eauto using numeral_nonempty.
    rewrite (get_habit_log_run p q ∅ _ sid day); [|done|by rewrite Hq|]; cycle 1.
    { by apply (quiet_drop 1 1). }
    cbn [fst db]. by rewrite reconciled_selected.
Qed.

(** The example of the specification: [1, 3] is logged for student 101 on
    2026-01-06, then the empty array. *)
Lemma empty_submission_after_1_and_3 :
  let day := ("log_date", JStr "2026-01-06") in
  let first := serve POST ["habit-log"] ∅
                 (object [("std_id", JNum 101); ("habit_ids", JArr [JNum 1; JNum 3]); day])
                 fresh in
  let set := serve POST ["habit-log"] ∅
               (object [("std_id", JNum 101); ("habit_ids", JArr []); day]) (snd first) in
  let get := serve GET ["habit-log"; "101"] (object [day]) ∅ (snd set) in
  fst (serve GET ["habit-log"; "101"] (object [day]) ∅ (snd first))
  = inr (Response 200 (HabitLogRows [(1, 1); (3, 1)]))
  ∧ fst set = inr (Response 200 (Message "Habit log saved"))
  ∧ filter (λ r, Habit_Log.std_id r = 101 ∧ Habit_Log.log_date r = Date 2026 1 6)
      (rows (Habit_Log (db (snd set)))) = []
  ∧ fst get = inr (Response 200 (HabitLogRows [])).
Proof.
  cbv zeta. split; [reflexivity|].
  apply (empty_submission_clears_the_day ∅ _ _ "101" _ 101 (Date 2026 1 6));
    try reflexivity.
  unfold quiet. vm_compute. constructor.
Defined.

(** Student 101 has three bookings, student 102 has one. *)
Lemma list_for_student_101 :
  ∃ rs,
    serve GET ["appointments"; "101"] ∅ ∅ booked
    = (inr (Response 200 (AppointmentRows rs)),
       World (db booked) (tail (faults booked)) (now booked))
    ∧ StronglySorted by_date_desc_time_desc rs
    ∧ rs ≡ₚ filter (λ r, Appointment.std_id r = 101) (rows (Appointment (db booked)))
    ∧ (101 ∉ Appointment.std_id <$> rows (Appointment (db booked)) → rs = []).
Proof.
  apply (list_for_student_is_ordered "101" 101 ∅ ∅ booked).
  - reflexivity.
  - unfold quiet. vm_compute. constructor.
Defined.

Example list_for_student_101_order :
  fst (serve GET ["appointments"; "101"] ∅ ∅ booked)
  = inr (Response 200 (AppointmentRows [
      Appointment.Row 3 101 "Doctor" "Dr. Karim" (Date 2026 1 12) (Time 9 30 0)
        "Pending" None None;
      Appointment.Row 4 101 "Counselor" "Dr. Rahman" (Date 2026 1 10) (Time 16 0 0)
        "Pending" None None;
      Appointment.Row 1 101 "Counselor" "Dr. Rahman" (Date 2026 1 10) (Time 14 0 0)
        "Pending" (Some "Stress management") None ])).
Proof. reflexivity. Qed.

Example list_for_student_without_appointments :
  fst (serve GET ["appointments"; "101"] ∅ ∅ fresh)
  = inr (Response 200 (AppointmentRows [])).
Proof. reflexivity. Qed.

(** * Further properties of server.js *)

(** ** The other listings *)

Lemma serve_get_mood_log p q b :
  p ≠ "" →
  serve GET ["mood-log"; p] q b = get_mood_log (Request {["std_id" := p]} q b).
Proof. intros Hp. destruct p; [congruence | reflexivity]. Qed.

Lemma serve_get_notifications p q b :
  p ≠ "" →
  serve GET ["notifications"; p] q b = get_notifications (Request {["std_id" := p]} q b).
Proof. intros Hp. destruct p; [congruence | reflexivity]. Qed.

Lemma date_le_total (a b : date) : date_le a b ∨ date_le b a.
Proof. unfold date_le. lia. Qed.

Lemma date_le_trans (a b c : date) : date_le a b → date_le b c → date_le a c.
Proof. unfold date_le. lia. Qed.

Lemma time_le_trans (a b c : time) : time_le a b → time_le b c → time_le a c.
Proof. unfold time_le. lia. Qed.

Global Instance by_log_date_desc_total : Total by_log_date_desc.
Proof. intros a b. unfold by_log_date_desc. apply date_le_total. Qed.
Global Instance by_log_date_desc_trans : Transitive by_log_date_desc.
Proof. intros a b c H1 H2. unfold by_log_date_desc in *. by eapply date_le_trans. Qed.

Global Instance by_habit_id_total : Total by_habit_id.
Proof. intros a b. unfold by_habit_id. lia. Qed.
Global Instance by_habit_id_trans : Transitive by_habit_id.
Proof. intros a b c. unfold by_habit_id. lia. Qed.

Global Instance by_appointment_time_total : Total by_appointment_time.
Proof. intros a b. unfold by_appointment_time. apply time_le_total. Qed.
Global Instance by_appointment_time_trans : Transitive by_appointment_time.
Proof. intros a b c H1 H2. unfold by_appointment_time in *. by eapply time_le_trans. Qed.

Global Instance by_n_id_desc_total : Total by_n_id_desc.
Proof. intros a b. unfold by_n_id_desc. lia. Qed.
Global Instance by_n_id_desc_trans : Transitive by_n_id_desc.
Proof. intros a b c. unfold by_n_id_desc. lia. Qed.

(** X1. GET /mood-log/:std_id answers 200 with exactly the mood logs of
    that student, no log placed before a log of a later date, when the
    store raises no error on the SELECT. *)
Theorem mood_log_listing_is_newest_first p sid q b w :
  sql_number (JStr p) = Some sid →
  quiet 1 w →
  ∃ rs,
    serve GET ["mood-log"; p] q b w
    = (inr (Response 200 (MoodRows rs)), World (db w) (tail (faults w)) (now w))
    ∧ StronglySorted by_log_date_desc rs
    ∧ rs ≡ₚ filter (λ r, Mood_log.std_id r = sid) (rows (Mood_log (db w))).
Proof.
  intros Hp Hquiet. eexists. split; [|split].
  - rewrite serve_get_mood_log by eauto using numeral_nonempty.
    unfold get_mood_log, try_catch. cbv zeta.
    rewrite bind_run, (pool_execute_quiet _ 0) by done.
    rewrite param_of_singleton. unfold select_Mood_log. by rewrite Hp.
  - apply (StronglySorted_merge_sort _).
  - apply merge_sort_Permutation.
Qed.

Lemma mood_log_listing_of_three_days :
  ∃ rs,
    serve GET ["mood-log"; "101"] ∅ ∅ mooded
    = (inr (Response 200 (MoodRows rs)), World (db mooded) (tail (faults mooded)) (now mooded))
    ∧ StronglySorted by_log_date_desc rs
    ∧ rs ≡ₚ filter (λ r, Mood_log.std_id r = 101) (rows (Mood_log (db mooded))).
Proof.
  apply (mood_log_listing_is_newest_first "101" 101 ∅ ∅ mooded);
    [reflexivity | unfold quiet; vm_compute; constructor].
Defined.

(** The logs of student 101 were saved for the 6th, the 8th and the 5th,
    in that order, and the log of student 102 for the 9th. *)
Example mood_log_listing_of_three_days_order :
  (λ r, (Mood_log.log_id r, Mood_log.std_id r, Mood_log.log_date r))
    <$> rows (Mood_log (db mooded))
  = [(1, 101, Date 2026 1 6); (2, 101, Date 2026 1 8); (3, 102, Date 2026 1 9);
     (4, 101, Date 2026 1 5)]
  ∧ ∃ rs,
      fst (serve GET ["mood-log"; "101"] ∅ ∅ mooded) = inr (Response 200 (MoodRows rs))
      ∧ (λ r, (Mood_log.log_id r, Mood_log.log_date r)) <$> rs
        = [(2, Date 2026 1 8); (1, Date 2026 1 6); (4, Date 2026 1 5)].
Proof. split; [reflexivity|]. eexists. split; reflexivity. Qed.

(** X2. GET /habits answers 200 with the whole catalog in ascending
    order of habit_id, when the store raises no error on the SELECT. *)
Theorem habit_catalog_is_listed_by_id q b w :
  quiet 1 w →
  ∃ rs,
    serve GET ["habits"] q b w
    = (inr (Response 200 (HabitRows rs)), World (db w) (tail (faults w)) (now w))
    ∧ StronglySorted by_habit_id rs
    ∧ rs ≡ₚ rows (Habit (db w)).
Proof.
  intros Hquiet. eexists. split; [|split].
  - change (serve GET ["habits"] q b) with (get_habits (Request ∅ q b)).
    unfold get_habits, try_catch, pool_query.
    rewrite bind_run, (pool_execute_quiet _ 0) by done. reflexivity.
  - apply (StronglySorted_merge_sort _).
  - apply merge_sort_Permutation.
Qed.

Lemma habit_catalog_of_the_seeded_store :
  ∃ rs,
    serve GET ["habits"] ∅ ∅ fresh
    = (inr (Response 200 (HabitRows rs)), World (db fresh) (tail (faults fresh)) (now fresh))
    ∧ StronglySorted by_habit_id rs
    ∧ rs ≡ₚ rows (Habit (db fresh)).
Proof. apply (habit_catalog_is_listed_by_id ∅ ∅ fresh). apply fresh_quiet. Defined.

(** X3. GET /notifications/:std_id answers 200 with exactly the
    notifications of that student, highest n_id first, when the store
    raises no error on the SELECT. *)
Theorem notifications_are_listed_latest_first p sid q b w :
  sql_number (JStr p) = Some sid →
  quiet 1 w →
  ∃ rs,
    serve GET ["notifications"; p] q b w
    = (inr (Response 200 (NotificationRows rs)), World (db w) (tail (faults w)) (now w))
    ∧ StronglySorted by_n_id_desc rs
    ∧ rs ≡ₚ filter (λ r, Notification.std_id r = sid) (rows (Notification (db w))).
Proof.
  intros Hp Hquiet. eexists. split; [|split].
  - rewrite serve_get_notifications by eauto using numeral_nonempty.
    unfold get_notifications, try_catch. cbv zeta.
    rewrite bind_run, (pool_execute_quiet _ 0) by done.
    rewrite param_of_singleton. unfold select_Notification. by rewrite Hp.
  - apply (StronglySorted_merge_sort _).
  - apply merge_sort_Permutation.
Qed.

Lemma notifications_of_the_seeded_student :
  ∃ rs,
    serve GET ["notifications"; "101"] ∅ ∅ booked
    = (inr (Response 200 (NotificationRows rs)),
       World (db booked) (tail (faults booked)) (now booked))
    ∧ StronglySorted by_n_id_desc rs
    ∧ rs ≡ₚ filter (λ r, Notification.std_id r = 101) (rows (Notification (db booked))).
Proof.
  apply (notifications_are_listed_latest_first "101" 101 ∅ ∅ booked);
    [reflexivity | unfold quiet; vm_compute; constructor].
Defined.

(** X4. GET /professional/today answers 200 with exactly the
    appointments, of all students, whose date is the date part of the
    clock's ISO timestamp, earliest time first, when that date part is a
    date and the store raises no error on the SELECT. *)
Theorem todays_appointments_are_listed_by_time q b w day :
  parse_date (before "T" (now w)) = Some day →
  quiet 1 w →
  ∃ rs,
    serve GET ["professional"; "today"] q b w
    = (inr (Response 200 (AppointmentRows rs)), World (db w) (tail (faults w)) (now w))
    ∧ StronglySorted by_appointment_time rs
    ∧ rs ≡ₚ filter (λ r, Appointment.appointment_date r = day) (rows (Appointment (db w))).
Proof.
  intros Hday Hquiet. eexists. split; [|split].
  - change (serve GET ["professional"; "today"] q b)
      with (get_professional_today (Request ∅ q b)).
    unfold get_professional_today, try_catch.
    rewrite bind_run. unfold today at 1.
    rewrite bind_run, (pool_execute_quiet _ 0) by done.
    unfold select_Appointment_on. cbn [as_DATE]. rewrite Hday. reflexivity.
  - apply (StronglySorted_merge_sort _).
  - apply merge_sort_Permutation.
Qed.

Lemma todays_appointments_on_the_10th :
  ∃ rs,
    serve GET ["professional"; "today"] ∅ ∅ booked_on_the_10th
    = (inr (Response 200 (AppointmentRows rs)),
       World (db booked_on_the_10th) (tail (faults booked_on_the_10th))
         (now booked_on_the_10th))
    ∧ StronglySorted by_appointment_time rs
    ∧ rs ≡ₚ filter (λ r, Appointment.appointment_date r = Date 2026 1 10)
              (rows (Appointment (db booked_on_the_10th))).
Proof.
  apply (todays_appointments_are_listed_by_time ∅ ∅ booked_on_the_10th (Date 2026 1 10));
    [reflexivity | unfold quiet; vm_compute; constructor].
Defined.

Example todays_appointments_on_the_10th_order :
  fst (serve GET ["professional"; "today"] ∅ ∅ booked_on_the_10th)
  = inr (Response 200 (AppointmentRows [
      Appointment.Row 1 101 "Counselor" "Dr. Rahman" (Date 2026 1 10) (Time 14 0 0)
        "Pending" (Some "Stress management") None;
      Appointment.Row 4 101 "Counselor" "Dr. Rahman" (Date 2026 1 10) (Time 16 0 0)
        "Pending" None None ])).
Proof. reflexivity. Qed.

(** ** What a request can do to the database *)

Lemma dispatch_some routes m path q b run :
  dispatch routes m path q b = Some run →
  ∃ r ps, r ∈ routes ∧ verb r = m ∧ match_path (pattern r) path = Some ps
          ∧ run = callback r (Request ps q b).
Proof.
  induction routes as [|r routes IH]; [done|]. cbn [dispatch].
  destruct (route_on r m path q b) as [run'|] eqn:Hr.
  - intros [= <-]. unfold route_on in Hr.
    destruct (decide (verb r = m)) as [Hm|]; [|done].
    destruct (match_path (pattern r) path) as [ps|] eqn:Hps; [|done].
    injection Hr as <-. exists r, ps. split; [by left | done].
  - intros (r' & ps & Hin & Hm & Hps & ->)%IH. exists r', ps. split; [by right | done].
Qed.

Section keeps.
Context (R : relation database) `{!PreOrder R}.

Lemma keeps_ret {A} (a : A) : keeps R (mret a).
Proof. intros w. reflexivity. Qed.

Lemma keeps_throw {A} message : keeps R (@throw A message).
Proof. intros w. reflexivity. Qed.

Lemma keeps_today : keeps R today.
Proof. intros w. reflexivity. Qed.

Lemma keeps_current_timestamp : keeps R current_timestamp.
Proof. intros w. reflexivity. Qed.

Lemma keeps_bind {A B} (m : M A) (k : A → M B) :
  keeps R m → (∀ a, keeps R (k a)) → keeps R (m ≫= k).
Proof.
  intros Hm Hk w. rewrite bind_run. specialize (Hm w).
  destruct (m w) as [[err|a] w1]; [done|].
  etrans; [exact Hm|]. apply Hk.
Qed.

Lemma keeps_try_catch {A} (m : M A) (recover : string → M A) :
  keeps R m → (∀ err, keeps R (recover err)) → keeps R (try_catch m recover).
Proof.
  intros Hm Hk w. unfold try_catch. specialize (Hm w).
  destruct (m w) as [[err|a] w1]; [|done].
  etrans; [exact Hm|]. apply Hk.
Qed.

Lemma keeps_execute {A} (sql : statement A) :
  statement_keeps R sql → keeps R (pool_execute sql).
Proof.
  intros Hsql w. unfold pool_execute.
  destruct (faults w) as [|[message|] later]; cbn [snd db]; try reflexivity;
    destruct (sql (db w)) as [message|[a d]] eqn:Hrun; cbn [snd db];
    try reflexivity; by eapply Hsql.
Qed.

Lemma keeps_for_of {A} (items : list A) (body : A → M unit) :
  (∀ x, keeps R (body x)) → keeps R (for_of items body).
Proof.
  intros Hbody. induction items as [|x items IH]; cbn [for_of].
  - apply keeps_ret.
  - apply keeps_bind; [apply Hbody | by intros _].
Qed.

Lemma unchanged_keeps {A} (sql : statement A) :
  (∀ d a d', sql d = inr (a, d') → d' = d) → statement_keeps R sql.
Proof. intros Hsql d a d' ->%Hsql. reflexivity. Qed.
End keeps.

(** The SELECT statements return the database they were given. *)
Ltac crack_statement :=
  intros d a d'; unfold param, foreign_key, nullable;
  repeat case_match; intros; simplify_eq; try done.

Lemma select_1_unchanged d a d' : select_1 d = inr (a, d') → d' = d.
Proof. unfold select_1. by intros [= _ <-]. Qed.
Lemma select_Mood_log_unchanged v d a d' : select_Mood_log v d = inr (a, d') → d' = d.
Proof. revert d a d'. unfold select_Mood_log. crack_statement. Qed.
Lemma select_Habit_unchanged d a d' : select_Habit d = inr (a, d') → d' = d.
Proof. unfold select_Habit. by intros [= _ <-]. Qed.
Lemma select_Habit_Log_unchanged v v' d a d' :
  select_Habit_Log v v' d = inr (a, d') → d' = d.
Proof. revert d a d'. unfold select_Habit_Log. crack_statement. Qed.
Lemma select_Appointment_of_unchanged v d a d' :
  select_Appointment_of v d = inr (a, d') → d' = d.
Proof. revert d a d'. unfold select_Appointment_of. crack_statement. Qed.
Lemma select_Appointment_on_unchanged v d a d' :
  select_Appointment_on v d = inr (a, d') → d' = d.
Proof. revert d a d'. unfold select_Appointment_on. crack_statement. Qed.
Lemma select_Notification_unchanged v d a d' :
  select_Notification v d = inr (a, d') → d' = d.
Proof. revert d a d'. unfold select_Notification. crack_statement. Qed.
Lemma count_Student_unchanged d a d' : count_Student d = inr (a, d') → d' = d.
Proof. unfold count_Student. by intros [= _ <-]. Qed.
Lemma count_professionals_unchanged d a d' : count_professionals d = inr (a, d') → d' = d.
Proof. unfold count_professionals. by intros [= _ <-]. Qed.
Lemma count_Appointment_unchanged d a d' : count_Appointment d = inr (a, d') → d' = d.
Proof. unfold count_Appointment. by intros [= _ <-]. Qed.

Ltac listed := repeat first [apply list_elem_of_here | apply list_elem_of_further].

Ltac keeps_step :=
  match goal with
  | |- PreOrder _ => apply _
  | |- keeps _ (try_catch _ _) => apply keeps_try_catch
  | |- keeps _ (_ ≫= _) => apply keeps_bind
  | |- keeps _ (mret _) => apply keeps_ret
  | |- keeps _ (throw _) => apply keeps_throw
  | |- keeps _ today => apply keeps_today
  | |- keeps _ current_timestamp => apply keeps_current_timestamp
  | |- keeps _ (pool_query _) => unfold pool_query
  | |- keeps _ (pool_execute _) => apply keeps_execute
  | |- keeps _ (for_of _ _) => apply keeps_for_of
  | |- keeps _ (if ?c then _ else _) => destruct c eqn:?
  | |- keeps _ (match ?x with _ => _ end) => destruct x
  | |- ∀ _, _ => intro
  end.

Ltac keeps_read :=
  apply (unchanged_keeps _);
  first [ apply select_1_unchanged | apply select_Mood_log_unchanged
        | apply select_Habit_unchanged | apply select_Habit_Log_unchanged
        | apply select_Appointment_of_unchanged | apply select_Appointment_on_unchanged
        | apply select_Notification_unchanged | apply count_Student_unchanged
        | apply count_professionals_unchanged | apply count_Appointment_unchanged ].

(** The handlers of the GET routes issue SELECT statements only. *)
Lemma get_handlers_keep (R : relation database) `{!PreOrder R} h req :
  h ∈ [get_health; get_mood_log; get_habits; get_habit_log; get_appointments;
       get_professional_today; get_admin_stats; get_notifications] →
  keeps R (h req).
Proof.
  intros Hh. each_of Hh;
    match goal with |- keeps _ (?h _) => unfold h end; cbv zeta;
    repeat keeps_step; keeps_read.
Qed.

(** X5. A GET request never changes the database: whatever the path, the
    query, the body, the state of the store and the errors it raises. *)
Theorem get_requests_change_nothing path q b w :
  db (snd (serve GET path q b w)) = db w.
Proof.
  symmetry. revert w. change (keeps eq (serve GET path q b)).
  unfold serve. destruct (dispatch app GET path q b) as [run|] eqn:Hrun; cbn [default].
  - apply dispatch_some in Hrun as (r & ps & Hr & Hverb & _ & ->).
    unfold app in Hr. each_of Hr; try discriminate Hverb;
      apply (get_handlers_keep eq); cbn [callback status_route_first status_route_second];
      listed.
  - apply (keeps_ret eq).
Qed.

Section every_request.
Context (R : relation database) `{!PreOrder R}.
Hypothesis insert_Mood_log_keeps : ∀ v1 v2 v3 v4 v5 v6 v7 v8,
  statement_keeps R (insert_Mood_log v1 v2 v3 v4 v5 v6 v7 v8).
Hypothesis delete_Habit_Log_keeps : ∀ v1 v2,
  statement_keeps R (delete_Habit_Log v1 v2).
Hypothesis insert_Habit_Log_keeps : ∀ v1 v2 v3,
  statement_keeps R (insert_Habit_Log v1 v2 v3).
Hypothesis insert_Appointment_keeps : ∀ v1 v2 v3 v4 v5 v6,
  statement_keeps R (insert_Appointment v1 v2 v3 v4 v5 v6).
Hypothesis insert_Notification_keeps : ∀ stamp v1 v2,
  statement_keeps R (insert_Notification stamp v1 v2).
Hypothesis update_Notification_read_keeps : ∀ v,
  statement_keeps R (update_Notification_read v).
Hypothesis update_Appointment_status_keeps : ∀ status id,
  includes ["Approved"; "Cancelled"; "Completed"] status = true →
  statement_keeps R (update_Appointment_status status id).

Lemma writing_handlers_keep h req :
  h ∈ [post_mood_log; post_habit_log; post_appointments; put_notifications_read;
       put_appointments_status_id; put_appointments_status_appoint_id] →
  keeps R (h req).
Proof using All.
  intros Hh. each_of Hh;
    match goal with |- keeps _ (?h _) => unfold h end; cbv zeta;
    repeat keeps_step; auto;
    apply update_Appointment_status_keeps; by apply negb_false_iff.
Qed.

(** Whatever every write of the handlers keeps, every request keeps. *)
Lemma every_request_keeps m path q b : keeps R (serve m path q b).
Proof using All.
  unfold serve. destruct (dispatch app m path q b) as [run|] eqn:Hrun; cbn [default].
  - apply dispatch_some in Hrun as (r & ps & Hr & _ & _ & ->).
    unfold app in Hr. each_of Hr; cbn [callback status_route_first status_route_second];
      first [ apply writing_handlers_keep; by listed
            | apply (get_handlers_keep R); by listed ].
  - by apply keeps_ret.
Qed.
End every_request.

(** ** Rows that stay *)

Global Instance grows_preorder {A} (step : relation A) `{!PreOrder step} :
  PreOrder (grows step).
Proof.
  split.
  - intros l. exists l, []. split; [by rewrite app_nil_r|].
    by apply Forall2_same_length_lookup_2; [|intros i x y ? ?; simplify_eq].
  - intros l1 l2 l3 (k2 & a2 & -> & H12) (k3 & a3 & -> & H23).
    apply Forall2_app_inv_l in H23 as (k3' & a3' & H23 & _ & ->).
    exists k3', (a3' ++ a3)%list. split; [by rewrite app_assoc|].
    by etrans.
Qed.

Lemma grows_added {A} (step : relation A) `{!Reflexive step} (l added : list A) :
  grows step l (l ++ added).
Proof.
  exists l, added. split; [done|].
  by apply Forall2_same_length_lookup_2; [|intros i x y ? ?; simplify_eq].
Qed.

Lemma grows_fmap {A} (step : relation A) (f : A → A) (l : list A) :
  (∀ x, step x (f x)) → grows step l (f <$> l).
Proof.
  intros Hf. exists (f <$> l), []. split; [by rewrite app_nil_r|].
  apply Forall2_fmap_r, Forall_Forall2_diag, Forall_forall. auto.
Qed.

Global Instance same_but_status_preorder : PreOrder same_but_status.
Proof.
  split.
  - by intros [].
  - intros a b c. unfold same_but_status. intros -> ->. by destruct a.
Qed.

Global Instance same_or_read_preorder : PreOrder same_or_read.
Proof.
  split.
  - by left.
  - intros a b c [->| ->] [->| ->]; unfold same_or_read; auto.
Qed.

Global Instance catalog_unchanged_preorder : PreOrder catalog_unchanged.
Proof.
  split.
  - by intros d.
  - intros d1 d2 d3 (? & ? & ?) (? & ? & ?). unfold catalog_unchanged.
    repeat split; congruence.
Qed.

Global Instance statuses_stay_known_preorder : PreOrder statuses_stay_known.
Proof. split; unfold statuses_stay_known; [by intros d | intros d1 d2 d3; auto]. Qed.

Global Instance appointments_grow_preorder : PreOrder appointments_grow.
Proof.
  split; unfold appointments_grow; [intros d; reflexivity|].
  intros d1 d2 d3 ? ?. by etrans.
Qed.

Global Instance mood_logs_grow_preorder : PreOrder mood_logs_grow.
Proof.
  split; unfold mood_logs_grow; [intros d; reflexivity|].
  intros d1 d2 d3 ? ?. by etrans.
Qed.

Global Instance notifications_grow_preorder : PreOrder notifications_grow.
Proof.
  split; unfold notifications_grow; [intros d; reflexivity|].
  intros d1 d2 d3 ? ?. by etrans.
Qed.

Lemma param_inr {A B} (converted : option A) (k : A → string + B) x :
  param converted k = inr x → ∃ a, converted = Some a ∧ k a = inr x.
Proof. destruct converted as [a|]; [by exists a | done]. Qed.

Lemma foreign_key_inr {B} ok (k : string + B) x :
  foreign_key ok k = inr x → ok = true ∧ k = inr x.
Proof. by destruct ok. Qed.

(** Open a statement that succeeded. *)
Ltac opened sql :=
  let Hrun := fresh "Hrun" in
  unfold statement_keeps, sql; intros ? ? ? Hrun;
  repeat first [ apply param_inr in Hrun as (? & ? & Hrun)
               | apply foreign_key_inr in Hrun as [? Hrun] ];
  simplify_eq.

(** X6. No request changes the User, Student or Habit table: the users,
    the students and the habit catalog are read-only for the server. *)
Theorem catalog_is_read_only m path q b w :
  catalog_unchanged (db w) (db (snd (serve m path q b w))).
Proof.
  apply (every_request_keeps catalog_unchanged); intros.
  - by opened insert_Mood_log.
  - by opened delete_Habit_Log.
  - by opened insert_Habit_Log.
  - by opened insert_Appointment.
  - by opened insert_Notification.
  - by opened update_Notification_read.
  - by opened update_Appointment_status.
Qed.

(** X7. Mood logs are append-only: after any request the Mood_log rows
    there were are still there, unchanged and in place, possibly followed
    by new ones. *)
Theorem mood_logs_are_append_only m path q b w :
  grows eq (rows (Mood_log (db w))) (rows (Mood_log (db (snd (serve m path q b w))))).
Proof.
  apply (every_request_keeps mood_logs_grow); intros.
  - opened insert_Mood_log. apply (grows_added _).
  - opened delete_Habit_Log. apply (reflexivity (R := grows eq)).
  - opened insert_Habit_Log. apply (reflexivity (R := grows eq)).
  - opened insert_Appointment. apply (reflexivity (R := grows eq)).
  - opened insert_Notification. apply (reflexivity (R := grows eq)).
  - opened update_Notification_read. apply (reflexivity (R := grows eq)).
  - opened update_Appointment_status. apply (reflexivity (R := grows eq)).
Qed.

(** X8. Appointments are never deleted and nothing but their status is
    ever changed: after any request the Appointment rows there were are
    still in place, each the same but possibly for its status, possibly
    followed by new ones. *)
Theorem appointments_are_kept m path q b w :
  grows same_but_status
    (rows (Appointment (db w))) (rows (Appointment (db (snd (serve m path q b w))))).
Proof.
  apply (every_request_keeps appointments_grow); intros.
  - opened insert_Mood_log. apply (reflexivity (R := grows same_but_status)).
  - opened delete_Habit_Log. apply (reflexivity (R := grows same_but_status)).
  - opened insert_Habit_Log. apply (reflexivity (R := grows same_but_status)).
  - opened insert_Appointment. apply (grows_added _).
  - opened insert_Notification. apply (reflexivity (R := grows same_but_status)).
  - opened update_Notification_read. apply (reflexivity (R := grows same_but_status)).
  - opened update_Appointment_status. apply grows_fmap.
    intros r. case_decide; [by destruct r | reflexivity].
Qed.

(** X9. Notifications are never deleted and are changed only by being
    marked read: after any request the Notification rows there were are
    still in place, each as it was or with is_read set to 1, possibly
    followed by new ones. *)
Theorem notifications_are_kept m path q b w :
  grows same_or_read
    (rows (Notification (db w))) (rows (Notification (db (snd (serve m path q b w))))).
Proof.
  apply (every_request_keeps notifications_grow); intros.
  - opened insert_Mood_log. apply (reflexivity (R := grows same_or_read)).
  - opened delete_Habit_Log. apply (reflexivity (R := grows same_or_read)).
  - opened insert_Habit_Log. apply (reflexivity (R := grows same_or_read)).
  - opened insert_Appointment. apply (reflexivity (R := grows same_or_read)).
  - opened insert_Notification. apply (grows_added _).
  - opened update_Notification_read. apply grows_fmap.
    intros r. case_decide; [by right | by left].
  - opened update_Appointment_status. apply (reflexivity (R := grows same_or_read)).
Qed.

Lemma allowed_status_is_known v s :
  includes ["Approved"; "Cancelled"; "Completed"] v = true →
  as_VARCHAR 30 v = Some s → known_status s.
Proof.
  intros Hin%allowed_status_iff Hs. unfold known_status.
  each_of Hin; vm_compute in Hs; simplify_eq; listed.
Qed.

Lemma statuses_untouched d d' :
  Appointment d' = Appointment d → statuses_stay_known d d'.
Proof. unfold statuses_stay_known, statuses_known. by intros ->. Qed.

(** X10. The status of an appointment stays one of Pending, Approved,
    Cancelled, Completed: if every appointment has such a status before a
    request, every appointment has one after it. *)
Theorem statuses_stay_within_the_four m path q b w :
  statuses_known (db w) →
  statuses_known (db (snd (serve m path q b w))).
Proof.
  apply (every_request_keeps statuses_stay_known); intros.
  - by opened insert_Mood_log; apply statuses_untouched.
  - by opened delete_Habit_Log; apply statuses_untouched.
  - by opened insert_Habit_Log; apply statuses_untouched.
  - opened insert_Appointment. intros Hknown. unfold statuses_known. cbn.
    apply Forall_app. split; [done|]. apply Forall_singleton. unfold known_status. listed.
  - by opened insert_Notification; apply statuses_untouched.
  - by opened update_Notification_read; apply statuses_untouched.
  - opened update_Appointment_status. intros Hknown. unfold statuses_known. cbn.
    apply Forall_fmap. eapply Forall_impl; [exact Hknown|].
    intros r Hr. cbn. case_decide; [|done]. cbn. by eapply allowed_status_is_known.
Qed.

Lemma statuses_stay_within_the_four_on_the_booked_store :
  statuses_known
    (db (snd (serve PUT ["appointments"; "status"; "3"] ∅
                (object [("status", JStr "Cancelled")]) booked))).
Proof.
  apply statuses_stay_within_the_four.
  unfold statuses_known. vm_compute. repeat constructor.
Defined.

(** ** Appointment status: an id that matches *)

Lemma listed_status_fits s :
  s ∈ ["Approved"; "Cancelled"; "Completed"] →
  includes ["Approved"; "Cancelled"; "Completed"] (JStr s) = true
  ∧ as_VARCHAR 30 (JStr s) = Some s.
Proof. intros H. by each_of H. Qed.

Lemma put_status_run id n q b w s :
  sql_number (JStr id) = Some n →
  field b "status" = JStr s →
  s ∈ ["Approved"; "Cancelled"; "Completed"] →
  quiet 1 w →
  serve PUT ["appointments"; "status"; id] q b w
  = (inr (Response 200 (Message "Status updated")),
     World
       (with_Appointment
          (Table ((λ r, if decide (Appointment.appoint_id r = n) then set_status s r else r)
                    <$> rows (Appointment (db w)))
             (auto_increment (Appointment (db w))))
          (db w))
       (tail (faults w)) (now w)).
Proof.
  intros Hid Hstatus Hs Hquiet.
  rewrite serve_put_appointments_status by eauto using numeral_nonempty.
  unfold put_appointments_status_id. cbv zeta. cbn [body]. rewrite Hstatus.
  destruct (listed_status_fits s Hs) as [-> Hfits]. cbn [negb].
  rewrite bind_run, (pool_execute_quiet _ 0) by done.
  rewrite param_of_singleton. unfold update_Appointment_status.
  by rewrite Hfits, Hid.
Qed.

(** X11. PUT /appointments/status/:id with a listed status, on a store
    that raises no error, answers 200 and gives that status to every
    appointment of that id, whatever its status was (no transition is
    refused); the appointments of other ids, the number and order of the
    rows, the other columns and the other tables are as they were. *)
Theorem update_status_sets_the_target_only id n q b w s :
  sql_number (JStr id) = Some n →
  field b "status" = JStr s →
  s ∈ ["Approved"; "Cancelled"; "Completed"] →
  quiet 1 w →
  let r := serve PUT ["appointments"; "status"; id] q b w in
  let old := rows (Appointment (db w)) in
  let new := rows (Appointment (db (snd r))) in
  fst r = inr (Response 200 (Message "Status updated"))
  ∧ Forall2 (λ a a', a' = if decide (Appointment.appoint_id a = n)
                          then set_status s a else a) old new
  ∧ Forall (λ a', Appointment.appoint_id a' = n → Appointment.status a' = s) new
  ∧ filter (λ a, Appointment.appoint_id a ≠ n) new
    = filter (λ a, Appointment.appoint_id a ≠ n) old
  ∧ with_Appointment (Appointment (db w)) (db (snd r)) = db w.
Proof.
  intros Hid Hstatus Hs Hquiet. cbv zeta.
  rewrite (put_status_run id n q b w s) by done. cbn [fst snd db].
  cbn [with_Appointment Appointment rows].
  split; [done|]. split; [|split; [|split]].
  - apply Forall2_fmap_r, Forall_Forall2_diag, Forall_forall. by intros a _.
  - apply Forall_fmap, Forall_forall. intros a _. cbn.
    case_decide; [by destruct a | done].
  - induction (rows (Appointment (db w))) as [|a l IH]; [done|].
    rewrite fmap_cons. case_decide as Ha.
    + rewrite !filter_cons_False; [done|by intros H; apply H|].
      intros H. apply H. by destruct a.
    + rewrite !filter_cons_True by done. by rewrite IH.
  - by destruct (db w) as [? ? ? ? ? [? ?] ?].
Qed.

Lemma update_status_of_appointment_3 :
  let r := serve PUT ["appointments"; "status"; "3"] ∅
             (object [("status", JStr "Approved")]) booked in
  let old := rows (Appointment (db booked)) in
  let new := rows (Appointment (db (snd r))) in
  fst r = inr (Response 200 (Message "Status updated"))
  ∧ Forall2 (λ a a', a' = if decide (Appointment.appoint_id a = 3)
                          then set_status "Approved" a else a) old new
  ∧ Forall (λ a', Appointment.appoint_id a' = 3 → Appointment.status a' = "Approved") new
  ∧ filter (λ a, Appointment.appoint_id a ≠ 3) new
    = filter (λ a, Appointment.appoint_id a ≠ 3) old
  ∧ with_Appointment (Appointment (db booked)) (db (snd r)) = db booked.
Proof.
  apply (update_status_sets_the_target_only "3" 3 ∅ _ booked "Approved").
  - reflexivity.
  - reflexivity.
  - listed.
  - unfold quiet. vm_compute. constructor.
Defined.

Example approved_then_cancelled :
  let put s w := snd (serve PUT ["appointments"; "status"; "3"] ∅
                        (object [("status", JStr s)]) w) in
  Appointment.status <$> rows (Appointment (db (put "Cancelled" (put "Approved" booked))))
  = ["Pending"; "Pending"; "Cancelled"; "Pending"].
Proof. reflexivity. Qed.

(** ** Habit log: resubmission, other days, rejected and failed submissions *)

Lemma Forall_take_le {A} (P : A → Prop) n m (l : list A) :
  (n ≤ m)%nat → Forall P (take m l) → Forall P (take n l).
Proof.
  intros Hle H. replace n with (n `min` m)%nat by lia.
  rewrite <- take_take. by apply Forall_take.
Qed.

Lemma quiet_World_drop n m d fs t :
  Forall (λ f, f = None) (take (n + m) fs) → quiet m (World d (drop n fs) t).
Proof.
  unfold quiet. cbn [faults]. rewrite <- take_take_drop. by intros [_ H]%Forall_app.
Qed.

(** X12. A second accepted submission for the same student and date
    replaces the first: both POSTs answer 200 and the GET that follows
    returns exactly the ids of the second array, as a set, whatever the
    first one held. *)
Theorem second_submission_replaces_the_first
    q1 b1 q2 b2 w p q sid day hids1 ids1 hids2 ids2 :
  truthy (field b1 "std_id") = true → truthy (field b2 "std_id") = true →
  as_INT (field b1 "std_id") = Some sid → as_INT (field b2 "std_id") = Some sid →
  as_DATE (field b1 "log_date") = Some day → as_DATE (field b2 "log_date") = Some day →
  field b1 "habit_ids" = JArr hids1 → field b2 "habit_ids" = JArr hids2 →
  Forall2 (λ v h, as_INT v = Some h) hids1 ids1 →
  Forall2 (λ v h, as_INT v = Some h) hids2 ids2 →
  references_Student (db w) sid = true →
  Forall (λ h, references_Habit (db w) h = true) (ids1 ++ ids2) →
  quiet (length hids1 + length hids2 + 3) w →
  sql_number (JStr p) = Some sid →
  as_DATE (field q "log_date") = Some day →
  let first := serve POST ["habit-log"] q1 b1 w in
  let second := serve POST ["habit-log"] q2 b2 (snd first) in
  let get := serve GET ["habit-log"; p] q ∅ (snd second) in
  fst first = inr (Response 200 (Message "Habit log saved"))
  ∧ fst second = inr (Response 200 (Message "Habit log saved"))
  ∧ ∃ rs, fst get = inr (Response 200 (HabitLogRows rs))
          ∧ list_to_set rs.*1 =@{gset Z} list_to_set ids2.
Proof.
  intros Ht1 Ht2 Hsid1 Hsid2 Hday1 Hday2 Harr1 Harr2 Hids1 Hids2 Hstudent
         [Hhabits1 Hhabits2]%Forall_app Hquiet Hp Hq. cbv zeta.
  rewrite !serve_post_habit_log.
  rewrite (post_habit_log_run q1 b1 w sid day hids1 ids1); try done; [|by right|].
  2: { apply (quiet_le _ (length hids1 + length hids2 + 3)); [lia | done]. }
  split; [done|]. cbn [snd].
  rewrite (post_habit_log_run q2 b2 _ sid day hids2 ids2); try done; [|by right|].
  2: { apply quiet_World_drop. eapply Forall_take_le; [|exact Hquiet]. lia. }
  split; [done|]. cbn [snd db faults now].
  rewrite serve_get_habit_log by eauto using numeral_nonempty.
  rewrite (get_habit_log_run p q ∅ _ sid day); [|done|done|].
  2: { rewrite drop_drop. apply quiet_World_drop.
       eapply Forall_take_le; [|exact Hquiet]. lia. }
  cbn [fst db]. rewrite reconciled_selected.
  eexists. split; [done|]. by rewrite <- list_fmap_compose, list_fmap_id.
Qed.

Lemma second_submission_on_the_seeded_store :
  let day := ("log_date", JStr "2026-01-06") in
  let first := serve POST ["habit-log"] ∅
                 (object [("std_id", JNum 101); ("habit_ids", JArr [JNum 1; JNum 3]); day])
                 fresh in
  let second := serve POST ["habit-log"] ∅
                  (object [("std_id", JNum 101); ("habit_ids", JArr [JNum 2; JNum 3; JNum 5]);
                           day]) (snd first) in
  let get := serve GET ["habit-log"; "101"] (object [day]) ∅ (snd second) in
  fst first = inr (Response 200 (Message "Habit log saved"))
  ∧ fst second = inr (Response 200 (Message "Habit log saved"))
  ∧ ∃ rs, fst get = inr (Response 200 (HabitLogRows rs))
          ∧ list_to_set rs.*1 =@{gset Z} list_to_set [2; 3; 5].
Proof.
  apply (second_submission_replaces_the_first ∅ _ ∅ _ fresh "101" _ 101 (Date 2026 1 6)
           [JNum 1; JNum 3] [1; 3] [JNum 2; JNum 3; JNum 5] [2; 3; 5]);
    try reflexivity; try (repeat constructor).
Defined.

Global Instance day_untouched_preorder sid day : PreOrder (day_untouched sid day).
Proof.
  split; unfold day_untouched; [by intros d|]. intros d1 d2 d3 H12 H23. congruence.
Qed.

Lemma filter_filter_implied {A} (P Q : A → Prop) `{!∀ x, Decision (P x)}
    `{!∀ x, Decision (Q x)} (l : list A) :
  (∀ x, P x → Q x) → filter P (filter Q l) = filter P l.
Proof.
  intros HPQ. induction l as [|x l IH]; [done|].
  destruct (decide (Q x)) as [HQ|HQ].
  - rewrite (filter_cons_True Q) by done.
    destruct (decide (P x)); [by rewrite !filter_cons_True, IH
                             | by rewrite !(filter_cons_False P), IH].
  - rewrite (filter_cons_False Q), (filter_cons_False P) by auto. done.
Qed.

Lemma submission_keeps_what_it_does_not_denote q b sid day :
  ¬ (sql_number (field b "std_id") = Some sid ∧ as_DATE (field b "log_date") = Some day) →
  keeps (day_untouched sid day) (post_habit_log (Request ∅ q b)).
Proof.
  intros Hother. unfold post_habit_log. cbv zeta. cbn [body]. repeat keeps_step.
  - opened delete_Habit_Log. unfold day_untouched. cbn.
    apply filter_filter_implied. intros r [Hs Hd] [Hs' Hd']. apply Hother. by subst.
  - opened insert_Habit_Log. unfold day_untouched. cbn.
    rewrite filter_app, filter_cons_False, filter_nil, app_nil_r; [done|]. cbn.
    intros [<- <-]. apply Hother. eauto using as_INT_number.
Qed.

(** X13. POST /habit-log touches the rows of one (student, date) pair
    only. When its [std_id] is an integer numeral and its [log_date] an
    ISO date, denoting the pair (student', day'), the rows of every other
    pair are as they were, whatever the outcome of the request (200, 400
    or 500), whatever the habit ids and whatever the store raises. *)
Theorem submission_leaves_other_days_alone q b w sid' day' sid day :
  sql_number (field b "std_id") = Some sid' →
  as_DATE (field b "log_date") = Some day' →
  (sid', day') ≠ (sid, day) →
  day_untouched sid day (db w) (db (snd (serve POST ["habit-log"] q b w))).
Proof.
  intros Hsid Hday Hother. rewrite serve_post_habit_log.
  apply submission_keeps_what_it_does_not_denote.
  intros [Hsid' Hday']. apply Hother. congruence.
Qed.

(** Habit 4 is logged for the 7th; then habits 1 and 3 for the 6th. *)
Lemma submission_leaves_the_next_day_alone :
  let day := ("log_date", JStr "2026-01-06") in
  let next := ("log_date", JStr "2026-01-07") in
  let w := snd (serve POST ["habit-log"] ∅
                  (object [("std_id", JNum 101); ("habit_ids", JArr [JNum 4]); next])
                  fresh) in
  day_untouched 101 (Date 2026 1 7) (db w)
    (db (snd (serve POST ["habit-log"] ∅
                (object [("std_id", JNum 101); ("habit_ids", JArr [JNum 1; JNum 3]); day])
                w))).
Proof.
  apply (submission_leaves_other_days_alone ∅ _ _ 101 (Date 2026 1 6));
    [reflexivity | reflexivity | by intros [=]].
Defined.

Example the_next_day_after_the_submission :
  let day := ("log_date", JStr "2026-01-06") in
  let next := ("log_date", JStr "2026-01-07") in
  let w := snd (serve POST ["habit-log"] ∅
                  (object [("std_id", JNum 101); ("habit_ids", JArr [JNum 4]); next])
                  fresh) in
  let w' := snd (serve POST ["habit-log"] ∅
                   (object [("std_id", JNum 101); ("habit_ids", JArr [JNum 1; JNum 3]); day])
                   w) in
  (λ r, (Habit_Log.habit_id r, Habit_Log.log_date r)) <$> rows (Habit_Log (db w'))
  = [(4, Date 2026 1 7); (1, Date 2026 1 6); (3, Date 2026 1 6)].
Proof. reflexivity. Qed.

(** X14. POST /habit-log with a falsy [std_id], a [habit_ids] that is no
    array (missing, a number, a string, an object) or a falsy [log_date]
    answers 400 before any statement runs: the rows of the day are not
    deleted and the world is as it was. *)
Theorem submission_with_a_bad_field_changes_nothing q b w :
  truthy (field b "std_id") = false ∨ isArray (field b "habit_ids") = false
  ∨ truthy (field b "log_date") = false →
  serve POST ["habit-log"] q b w
  = (inr (Response 400 (Message "std_id, habit_ids[], and log_date are required")), w).
Proof.
  intros Hbad. rewrite serve_post_habit_log. unfold post_habit_log. cbv zeta. cbn [body].
  assert (negb (truthy (field b "std_id")) || negb (isArray (field b "habit_ids"))
          || negb (truthy (field b "log_date")) = true) as ->; [|done].
  destruct Hbad as [-> | [-> | ->]]; cbn; by rewrite ?orb_true_r.
Qed.

Lemma submission_of_a_single_id_changes_nothing :
  let w := snd (serve POST ["habit-log"] ∅
                  (object [("std_id", JNum 101); ("habit_ids", JArr [JNum 4]);
                           ("log_date", JStr "2026-01-06")]) fresh) in
  serve POST ["habit-log"] ∅
    (object [("std_id", JNum 101); ("habit_ids", JNum 1); ("log_date", JStr "2026-01-06")]) w
  = (inr (Response 400 (Message "std_id, habit_ids[], and log_date are required")), w).
Proof.
  apply submission_with_a_bad_field_changes_nothing. right. left. reflexivity.
Defined.

Lemma for_of_app {A} (l1 l2 : list A) (body : A → M unit) w :
  for_of (l1 ++ l2) body w = (for_of l1 body;; for_of l2 body) w.
Proof.
  revert w. induction l1 as [|x l1 IH]; intros w; [done|].
  rewrite <- app_comm_cons. cbn [for_of]. rewrite !bind_run.
  destruct (body x w) as [[err|[]] w1]; [done|].
  by rewrite IH, bind_run.
Qed.

Lemma post_habit_log_failing_run q b w sid day done_ done_ids v rest message later :
  truthy (field b "std_id") = true →
  as_INT (field b "std_id") = Some sid →
  as_DATE (field b "log_date") = Some day →
  field b "habit_ids" = JArr (done_ ++ v :: rest) →
  Forall2 (λ v h, as_INT v = Some h) done_ done_ids →
  references_Student (db w) sid = true →
  Forall (λ h, references_Habit (db w) h = true) done_ids →
  quiet (S (length done_)) w →
  drop (S (length done_)) (faults w) = Some message :: later →
  post_habit_log (Request ∅ q b) w
  = (inr (Response 500 (Message message)),
     World (reconciled sid day done_ids (db w)) later (now w)).
Proof.
  intros Htruthy Hsid Hday Harr Hids Hstudent Hhabits Hquiet Hfault.
  unfold post_habit_log. cbv zeta. cbn [body].
  rewrite Htruthy, Harr, (as_DATE_truthy _ _ Hday). cbn [negb isArray orb items_of].
  unfold try_catch.
  rewrite bind_run, (pool_execute_quiet _ (length done_)) by done.
  unfold delete_Habit_Log at 1. rewrite (as_INT_number _ _ Hsid), Hday. cbn [param].
  rewrite bind_run, for_of_app, bind_run.
  rewrite (insert_loop _ _ sid day done_ done_ids);
    [|done|done|done|by right|done|by apply quiet_next].
  cbn [for_of]. rewrite bind_run. cbn [db faults now].
  rewrite tail_drop, Hfault. reflexivity.
Qed.

(** X15. The DELETE and the INSERTs of POST /habit-log are not one unit.
    When the store fails on the INSERT of one id after accepting the
    DELETE and the INSERTs before it, the answer is 500 with the store's
    message, the former rows of the day are gone, and the ids before the
    failing one are logged: the GET that follows returns them alone. *)
Theorem failed_insert_leaves_part_of_the_day
    q b w p q' sid day done_ done_ids v rest message later :
  truthy (field b "std_id") = true →
  as_INT (field b "std_id") = Some sid →
  as_DATE (field b "log_date") = Some day →
  field b "habit_ids" = JArr (done_ ++ v :: rest) →
  Forall2 (λ v h, as_INT v = Some h) done_ done_ids →
  references_Student (db w) sid = true →
  Forall (λ h, references_Habit (db w) h = true) done_ids →
  quiet (S (length done_)) w →
  drop (S (length done_)) (faults w) = Some message :: None :: later →
  sql_number (JStr p) = Some sid →
  as_DATE (field q' "log_date") = Some day →
  let set := serve POST ["habit-log"] q b w in
  let get := serve GET ["habit-log"; p] q' ∅ (snd set) in
  fst set = inr (Response 500 (Message message))
  ∧ fst get = inr (Response 200 (HabitLogRows ((λ h, (h, 1)) <$> done_ids))).
Proof.
  intros Htruthy Hsid Hday Harr Hids Hstudent Hhabits Hquiet Hfault Hp Hq. cbv zeta.
  rewrite serve_post_habit_log.
  rewrite (post_habit_log_failing_run q b w sid day done_ done_ids v rest message
             (None :: later)) by done.
  split; [done|]. cbn [snd].
  rewrite serve_get_habit_log by eauto using numeral_nonempty.
  rewrite (get_habit_log_run p q' ∅ _ sid day); [|done|done|by repeat constructor].
  cbn [fst db]. by rewrite reconciled_selected.
Qed.

Lemma failed_insert_on_the_seeded_store :
  let day := ("log_date", JStr "2026-01-06") in
  let w := snd (serve POST ["habit-log"] ∅
                  (object [("std_id", JNum 101); ("habit_ids", JArr [JNum 4; JNum 5]); day])
                  fresh) in
  let failing := World (db w) [None; None; Some "ER_LOCK_DEADLOCK"; None] (now w) in
  let set := serve POST ["habit-log"] ∅
               (object [("std_id", JNum 101); ("habit_ids", JArr [JNum 1; JNum 2; JNum 3]); day])
               failing in
  let get := serve GET ["habit-log"; "101"] (object [day]) ∅ (snd set) in
  fst set = inr (Response 500 (Message "ER_LOCK_DEADLOCK"))
  ∧ fst get = inr (Response 200 (HabitLogRows ((λ h, (h, 1)) <$> [1]))).
Proof.
  cbv zeta.
  apply (failed_insert_leaves_part_of_the_day ∅ _ _ "101" _ 101 (Date 2026 1 6)
           [JNum 1] [1] (JNum 2) [JNum 3] "ER_LOCK_DEADLOCK" []);
    try reflexivity; repeat constructor.
Defined.

(** ** Habit log: the default date *)

(** X16. GET /habit-log/:std_id without a [log_date] in the query (or
    with an empty one) is the same request as with [log_date] set to the
    date part of the clock's ISO timestamp: same answer, same world. *)
Theorem habit_log_defaults_to_today p q b w :
  truthy (field q "log_date") = false →
  serve GET ["habit-log"; p] q b w
  = serve GET ["habit-log"; p] (<["log_date" := JStr (before "T" (now w))]> q) b w.
Proof.
  intros Hfalsy. destruct (decide (p = "")) as [->|Hp]; [done|].
  rewrite !serve_get_habit_log by done.
  unfold get_habit_log, try_catch. cbv zeta. cbn [query].
  assert (js_or (field (<["log_date" := JStr (before "T" (now w))]> q) "log_date")
            (JStr (before "T" (now w)))
          = js_or (field q "log_date") (JStr (before "T" (now w)))) as Heq.
  { unfold js_or. rewrite Hfalsy. unfold field. rewrite lookup_insert_eq. cbn [default].
    unfold id. by destruct (truthy (JStr (before "T" (now w)))). }
  rewrite !bind_run. unfold today. cbv beta iota. by rewrite !bind_run, Heq.
Qed.

Lemma habit_log_of_today_on_the_seeded_store :
  let w := snd (serve POST ["habit-log"] ∅
                  (object [("std_id", JNum 101); ("habit_ids", JArr [JNum 2; JNum 5]);
                           ("log_date", JStr "2026-01-06")]) fresh) in
  serve GET ["habit-log"; "101"] ∅ ∅ w
  = serve GET ["habit-log"; "101"] (<["log_date" := JStr (before "T" (now w))]> ∅) ∅ w.
Proof. apply habit_log_defaults_to_today. reflexivity. Defined.

Example habit_log_of_today_rows :
  let w := snd (serve POST ["habit-log"] ∅
                  (object [("std_id", JNum 101); ("habit_ids", JArr [JNum 2; JNum 5]);
                           ("log_date", JStr "2026-01-06")]) fresh) in
  fst (serve GET ["habit-log"; "101"] ∅ ∅ w)
  = inr (Response 200 (HabitLogRows [(2, 1); (5, 1)])).
Proof. reflexivity. Qed.

(** ** Appointment creation: a failing second INSERT *)

(** X17. The two INSERTs of POST /appointments are not one unit. When the
    store accepts the appointment and then fails on the notification, the
    answer is 500 with the store's message, the appointment is booked all
    the same, with status Pending, and no notification exists for it. *)
Theorem failed_notification_leaves_the_appointment
    q b w sid kind who day clock why message later :
  Forall (λ name, truthy (field b name) = true) required_appointment_fields →
  as_INT (field b "std_id") = Some sid →
  as_VARCHAR 50 (field b "appointment_type") = Some kind →
  as_VARCHAR 100 (field b "professional_name") = Some who →
  as_DATE (field b "appointment_date") = Some day →
  as_TIME (field b "appointment_time") = Some clock →
  nullable as_TEXT (nullish (field b "reason") JNull) = Some why →
  references_Student (db w) sid = true →
  faults w = None :: Some message :: later →
  serve POST ["appointments"] q b w
  = (inr (Response 500 (Message message)),
     World
       (with_Appointment
          (insert_row (λ id, Appointment.Row id sid kind who day clock "Pending" why None)
             (Appointment (db w)))
          (db w))
       later (now w)).
Proof.
  intros Hpresent Hsid Hkind Hwho Hday Hclock Hwhy Hstudent Hfaults.
  rewrite serve_post_appointments.
  unfold post_appointments, try_catch. cbv zeta. cbn [body].
  rewrite (required_fields_present _ Hpresent).
  rewrite bind_run, (pool_execute_quiet _ 0)
    by (unfold quiet; rewrite Hfaults; by repeat constructor).
  unfold insert_Appointment. rewrite Hsid, Hkind, Hwho, Hday, Hclock, Hwhy.
  cbn [param]. rewrite Hstudent. cbn [foreign_key].
  rewrite bind_run. unfold current_timestamp.
  rewrite bind_run. unfold pool_execute. cbn [faults]. rewrite Hfaults. reflexivity.
Qed.

Lemma failed_notification_on_the_seeded_store :
  serve POST ["appointments"] ∅
    (booking 101 "Doctor" "Dr. Karim" "2026-01-12" "09:30" [])
    (World (db fresh) [None; Some "ER_LOCK_WAIT_TIMEOUT"] (now fresh))
  = (inr (Response 500 (Message "ER_LOCK_WAIT_TIMEOUT")),
     World
       (with_Appointment
          (insert_row
             (λ id, Appointment.Row id 101 "Doctor" "Dr. Karim" (Date 2026 1 12)
                      (Time 9 30 0) "Pending" None None)
             (Appointment (db fresh)))
          (db fresh))
       [] (now fresh)).
Proof.
  apply (failed_notification_leaves_the_appointment ∅ _
           (World (db fresh) [None; Some "ER_LOCK_WAIT_TIMEOUT"] (now fresh)));
    try reflexivity. repeat constructor.
Defined.

(** ** Mood log *)

(** X18. POST /mood-log without a truthy [std_id] or [log_date] answers
    400 and leaves the world as it was. *)
Theorem mood_log_without_id_or_date_changes_nothing q b w :
  truthy (field b "std_id") = false ∨ truthy (field b "log_date") = false →
  serve POST ["mood-log"] q b w
  = (inr (Response 400 (Message "std_id and log_date are required")), w).
Proof.
  intros Hbad. change (serve POST ["mood-log"] q b) with (post_mood_log (Request ∅ q b)).
  unfold post_mood_log, try_catch. cbv zeta. cbn [body].
  assert (negb (truthy (field b "std_id")) || negb (truthy (field b "log_date")) = true)
    as ->; [|done].
  destruct Hbad as [-> | ->]; cbn; by rewrite ?orb_true_r.
Qed.

Lemma mood_log_without_date_changes_nothing :
  serve POST ["mood-log"] ∅ (object [("std_id", JNum 101); ("mood_rating", JNum 4)]) fresh
  = (inr (Response 400 (Message "std_id and log_date are required")), fresh).
Proof. apply mood_log_without_id_or_date_changes_nothing. right. reflexivity. Defined.

Lemma missing_is_undefined (b : gmap string jsval) name :
  b !! name = None → field b name = JUndefined.
Proof. intros H. unfold field. by rewrite H. Qed.

Lemma post_mood_log_bare_run q b w sid day :
  truthy (field b "std_id") = true →
  as_INT (field b "std_id") = Some sid →
  as_DATE (field b "log_date") = Some day →
  Forall (λ name, b !! name = None)
    ["mood_rating"; "stress_level"; "energy_level"; "sleep_quantity";
     "emotional_status"; "notes"] →
  references_Student (db w) sid = true →
  quiet 1 w →
  post_mood_log (Request ∅ q b) w
  = (inr (Response 201 (Message "Mood log saved")),
     World
       (with_Mood_log
          (insert_row (λ id, Mood_log.Row id sid day None None None None None None)
             (Mood_log (db w)))
          (db w))
       (tail (faults w)) (now w)).
Proof.
  intros Htruthy Hsid Hday Hnone Hstudent Hquiet.
  unfold post_mood_log, try_catch. cbv zeta. cbn [body].
  rewrite Htruthy, (as_DATE_truthy _ _ Hday). cbn [negb orb].
  rewrite !Forall_cons in Hnone.
  destruct Hnone as (H1 & H2 & H3 & H4 & H5 & H6 & _).
  rewrite (missing_is_undefined _ _ H1), (missing_is_undefined _ _ H2),
    (missing_is_undefined _ _ H3), (missing_is_undefined _ _ H4),
    (missing_is_undefined _ _ H5), (missing_is_undefined _ _ H6).
  cbn [nullish].
  rewrite bind_run, (pool_execute_quiet _ 0) by done.
  unfold insert_Mood_log. rewrite Hsid, Hday. cbn [nullable param].
  by rewrite Hstudent.
Qed.

(** X19. POST /mood-log with a truthy [std_id] and [log_date] and no
    other field, on a store that accepts the INSERT, answers 201 and
    appends one row for that student and date in which every rating, the
    emotion and the notes are NULL; the rows there were stay. *)
Theorem mood_log_optional_fields_default_to_null q b w sid day :
  truthy (field b "std_id") = true →
  as_INT (field b "std_id") = Some sid →
  as_DATE (field b "log_date") = Some day →
  Forall (λ name, b !! name = None)
    ["mood_rating"; "stress_level"; "energy_level"; "sleep_quantity";
     "emotional_status"; "notes"] →
  references_Student (db w) sid = true →
  quiet 1 w →
  let r := serve POST ["mood-log"] q b w in
  fst r = inr (Response 201 (Message "Mood log saved"))
  ∧ rows (Mood_log (db (snd r)))
    = (rows (Mood_log (db w))
       ++ [Mood_log.Row (auto_increment (Mood_log (db w))) sid day
             None None None None None None])%list.
Proof.
  intros Htruthy Hsid Hday Hnone Hstudent Hquiet. cbv zeta.
  change (serve POST ["mood-log"] q b) with (post_mood_log (Request ∅ q b)).
  by rewrite (post_mood_log_bare_run q b w sid day).
Qed.

Lemma mood_log_of_id_and_date_only :
  let r := serve POST ["mood-log"] ∅
             (object [("std_id", JNum 101); ("log_date", JStr "2026-01-07")]) fresh in
  fst r = inr (Response 201 (Message "Mood log saved"))
  ∧ rows (Mood_log (db (snd r)))
    = (rows (Mood_log (db fresh))
       ++ [Mood_log.Row 2 101 (Date 2026 1 7) None None None None None None])%list.
Proof.
  apply (mood_log_optional_fields_default_to_null ∅ _ fresh 101 (Date 2026 1 7));
    try reflexivity; [repeat constructor | apply fresh_quiet].
Defined.

(** ** Marking a notification read *)

Lemma serve_put_notifications_read id q b :
  id ≠ "" →
  serve PUT ["notifications"; "read"; id] q b
  = put_notifications_read (Request {["n_id" := id]} q b).
Proof. intros Hid. destruct id; [congruence | reflexivity]. Qed.

Lemma put_notifications_read_run id n q b w :
  sql_number (JStr id) = Some n →
  quiet 1 w →
  serve PUT ["notifications"; "read"; id] q b w
  = (inr (Response 200 (Message "Notification marked as read")),
     World
       (with_Notification
          (Table ((λ r, if decide (Notification.n_id r = n) then mark_read r else r)
                    <$> rows (Notification (db w)))
             (auto_increment (Notification (db w))))
          (db w))
       (tail (faults w)) (now w)).
Proof.
  intros Hid Hquiet.
  rewrite serve_put_notifications_read by eauto using numeral_nonempty.
  unfold put_notifications_read, try_catch. cbv zeta.
  rewrite bind_run, (pool_execute_quiet _ 0) by done.
  rewrite param_of_singleton. unfold update_Notification_read. by rewrite Hid.
Qed.

Lemma mark_read_twice (n : Z) (l : list Notification.row) :
  (λ r, if decide (Notification.n_id r = n) then mark_read r else r)
    <$> ((λ r, if decide (Notification.n_id r = n) then mark_read r else r) <$> l)
  = (λ r, if decide (Notification.n_id r = n) then mark_read r else r) <$> l.
Proof.
  rewrite <- list_fmap_compose. apply list_fmap_ext. intros i r _. cbn.
  destruct (decide (Notification.n_id r = n)) as [Hn|Hn]; cbn.
  - by rewrite decide_True.
  - by rewrite decide_False.
Qed.

(** X20. PUT /notifications/read/:n_id, on a store that raises no error,
    answers 200, sets is_read to 1 on the notifications of that id and
    changes nothing else (with an id that no notification has, nothing at
    all); repeating the request leaves the database as the first one
    left it. *)
Theorem mark_read_marks_the_target_once id n q b w :
  sql_number (JStr id) = Some n →
  quiet 2 w →
  let r := serve PUT ["notifications"; "read"; id] q b w in
  let again := serve PUT ["notifications"; "read"; id] q b (snd r) in
  fst r = inr (Response 200 (Message "Notification marked as read"))
  ∧ Forall2 (λ x x', x' = if decide (Notification.n_id x = n) then mark_read x else x)
      (rows (Notification (db w))) (rows (Notification (db (snd r))))
  ∧ with_Notification (Notification (db w)) (db (snd r)) = db w
  ∧ fst again = inr (Response 200 (Message "Notification marked as read"))
  ∧ db (snd again) = db (snd r).
Proof.
  intros Hid Hquiet. cbv zeta.
  rewrite (put_notifications_read_run id n q b w) by (by try apply quiet_S).
  cbn [fst snd].
  rewrite (put_notifications_read_run id n q b) by (by try apply quiet_next).
  cbn [fst snd db with_Notification Notification rows auto_increment].
  split; [done|]. split; [|split; [|split]].
  - apply Forall2_fmap_r, Forall_Forall2_diag, Forall_forall. by intros x _.
  - by destruct (db w) as [? ? ? ? ? ? [? ?]].
  - done.
  - by rewrite mark_read_twice.
Qed.

Lemma mark_read_of_the_welcome_notification :
  let r := serve PUT ["notifications"; "read"; "1"] ∅ ∅ booked in
  let again := serve PUT ["notifications"; "read"; "1"] ∅ ∅ (snd r) in
  fst r = inr (Response 200 (Message "Notification marked as read"))
  ∧ Forall2 (λ x x', x' = if decide (Notification.n_id x = 1) then mark_read x else x)
      (rows (Notification (db booked))) (rows (Notification (db (snd r))))
  ∧ with_Notification (Notification (db booked)) (db (snd r)) = db booked
  ∧ fst again = inr (Response 200 (Message "Notification marked as read"))
  ∧ db (snd again) = db (snd r).
Proof.
  apply (mark_read_marks_the_target_once "1" 1 ∅ ∅ booked);
    [reflexivity | unfold quiet; vm_compute; constructor].
Defined.

Example is_read_after_marking :
  Notification.is_read
    <$> rows (Notification (db (snd (serve PUT ["notifications"; "read"; "1"] ∅ ∅ booked))))
  = [Some 1; Some 0; Some 0; Some 0; Some 0].
Proof. reflexivity. Qed.

(** ** Handlers that send no response *)

Lemma first_status_handler_rejects req w err :
  fst (put_appointments_status_id req w) = inl err
  ↔ field (body req) "status" ∈ [JStr "Approved"; JStr "Cancelled"; JStr "Completed"]
    ∧ fst (pool_execute
             (update_Appointment_status (field (body req) "status") (param_of req "id")) w)
      = inl err.
Proof.
  unfold put_appointments_status_id. cbv zeta.
  destruct (includes _ _) eqn:Hin; cbn [negb].
  - rewrite bind_run. apply allowed_status_iff in Hin.
    destruct (pool_execute _ w) as [[e|[]] w1]; cbn [fst]; split.
    + intros [= ->]. done.
    + by intros [_ [= ->]].
    + done.
    + by intros [_ ?].
  - split; [done|]. intros [Hlisted%allowed_status_iff _]. congruence.
Qed.

(** X21. Of the handlers registered in server.js, all but the first one
    of PUT /appointments/status send a response on every path: for every
    request with an object body, every state of the store and every error
    it raises, [res.json] is reached. That first handler sends none
    exactly when the status is listed and the store fails the UPDATE: its
    promise then rejects with the store's error. *)
Theorem every_handler_but_one_responds :
  Forall (λ r, r = status_route_first
               ∨ ∀ req w, ∃ res w', callback r req w = (inr res, w')) app
  ∧ ∀ req w err,
      fst (put_appointments_status_id req w) = inl err
      ↔ field (body req) "status" ∈ [JStr "Approved"; JStr "Cancelled"; JStr "Completed"]
        ∧ fst (pool_execute
                 (update_Appointment_status (field (body req) "status") (param_of req "id"))
                 w)
          = inl err.
Proof.
  split; [|apply first_status_handler_rejects].
  unfold app. repeat (apply Forall_cons; split); try apply Forall_nil;
    first [ done
          | by left
          | right; intros req w; cbn [callback status_route_second];
            apply guarded_handlers_always_answer; by listed ].
Qed.

Example a_failed_read_is_answered :
  fst (serve GET ["appointments"; "101"] ∅ ∅ (World (db booked) [Some "ECONNRESET"] (now booked)))
  = inr (Response 500 (Message "ECONNRESET")).
Proof. reflexivity. Qed.

(** ** Booking, then reading *)

Lemma tail_as_drop {A} (l : list A) : tail l = drop 1 l.
Proof. by destruct l. Qed.

Lemma get_appointments_run p sid q b w :
  sql_number (JStr p) = Some sid →
  quiet 1 w →
  serve GET ["appointments"; p] q b w
  = (inr (Response 200
            (AppointmentRows
               (merge_sort by_date_desc_time_desc
                  (filter (λ r, Appointment.std_id r = sid) (rows (Appointment (db w))))))),
     World (db w) (tail (faults w)) (now w)).
Proof.
  intros Hp Hquiet.
  rewrite serve_get_appointments by eauto using numeral_nonempty.
  unfold get_appointments, try_catch. cbv zeta.
  rewrite bind_run, (pool_execute_quiet _ 0) by done.
  rewrite param_of_singleton. unfold select_Appointment_of. by rewrite Hp.
Qed.

(** X22. A booking shows up in the student's list: after a POST
    /appointments that the store accepts, GET /appointments/:std_id for
    that student answers 200 with a list that holds the new appointment,
    with status Pending. *)
Theorem booked_appointment_is_listed q b w p q' b' sid kind who day clock why :
  Forall (λ name, truthy (field b name) = true) required_appointment_fields →
  as_INT (field b "std_id") = Some sid →
  as_VARCHAR 50 (field b "appointment_type") = Some kind →
  as_VARCHAR 100 (field b "professional_name") = Some who →
  as_DATE (field b "appointment_date") = Some day →
  as_TIME (field b "appointment_time") = Some clock →
  nullable as_TEXT (nullish (field b "reason") JNull) = Some why →
  references_Student (db w) sid = true →
  quiet 3 w →
  sql_number (JStr p) = Some sid →
  let booked := serve POST ["appointments"] q b w in
  let list := serve GET ["appointments"; p] q' b' (snd booked) in
  fst booked = inr (Response 201 (Message "Appointment created"))
  ∧ ∃ rs, fst list = inr (Response 200 (AppointmentRows rs))
          ∧ Appointment.Row (auto_increment (Appointment (db w))) sid kind who day clock
              "Pending" why None ∈ rs.
Proof.
  intros Hpresent Hsid Hkind Hwho Hday Hclock Hwhy Hstudent Hquiet Hp. cbv zeta.
  rewrite serve_post_appointments.
  rewrite (post_appointments_run q b w sid kind who day clock why);
    try done; [|by apply quiet_S].
  split; [done|]. cbn [snd].
  rewrite !tail_as_drop, drop_drop.
  rewrite (get_appointments_run p sid) by (done || by apply (quiet_World_drop 2 1)).
  eexists. split; [done|]. cbn [db with_Appointment with_Notification Appointment].
  rewrite merge_sort_Permutation. apply list_elem_of_filter. split; [done|].
  cbn [insert_row rows]. apply elem_of_app. right. by left.
Qed.

Lemma booked_appointment_is_listed_on_the_seeded_store :
  let booked := serve POST ["appointments"] ∅
                  (booking 101 "Doctor" "Dr. Karim" "2026-01-12" "09:30" []) fresh in
  let list := serve GET ["appointments"; "101"] ∅ ∅ (snd booked) in
  fst booked = inr (Response 201 (Message "Appointment created"))
  ∧ ∃ rs, fst list = inr (Response 200 (AppointmentRows rs))
          ∧ Appointment.Row (auto_increment (Appointment (db fresh))) 101 "Doctor"
              "Dr. Karim" (Date 2026 1 12) (Time 9 30 0) "Pending" None None ∈ rs.
Proof.
  apply (booked_appointment_is_listed ∅ _ fresh "101" ∅ ∅ 101 "Doctor" "Dr. Karim"
           (Date 2026 1 12) (Time 9 30 0) None);
    try reflexivity; [repeat constructor | apply fresh_quiet].
Defined.

Lemma get_admin_stats_run q b w :
  quiet 3 w →
  serve GET ["admin"; "stats"] q b w
  = (inr (Response 200
            (Stats (Z.of_nat (length (Student (db w))))
               (Z.of_nat (length (filter (λ u, User.role u = Some "professional")
                                    (User (db w)))))
               (Z.of_nat (length (rows (Appointment (db w))))))),
     World (db w) (drop 3 (faults w)) (now w)).
Proof.
  intros Hquiet.
  change (serve GET ["admin"; "stats"] q b) with (get_admin_stats (Request ∅ q b)).
  unfold get_admin_stats, try_catch, pool_query.
  rewrite bind_run, (pool_execute_quiet _ 2) by done. cbn [count_Student].
  rewrite bind_run, (pool_execute_quiet _ 1) by (by apply quiet_next).
  cbn [count_professionals db faults now]. rewrite !tail_as_drop, drop_drop.
  rewrite bind_run, (pool_execute_quiet _ 0) by (by apply (quiet_World_drop 2 1)).
  cbn [count_Appointment db faults now]. by rewrite tail_as_drop, drop_drop.
Qed.

(** X23. The appointment count of GET /admin/stats follows the bookings:
    when the store raises no error, the count reported after an accepted
    POST /appointments is the count reported before it plus one, and the
    counts of students and of professionals are the same. *)
Theorem booking_raises_the_appointment_count
    q0 b0 q b q1 b1 w sid kind who day clock why :
  Forall (λ name, truthy (field b name) = true) required_appointment_fields →
  as_INT (field b "std_id") = Some sid →
  as_VARCHAR 50 (field b "appointment_type") = Some kind →
  as_VARCHAR 100 (field b "professional_name") = Some who →
  as_DATE (field b "appointment_date") = Some day →
  as_TIME (field b "appointment_time") = Some clock →
  nullable as_TEXT (nullish (field b "reason") JNull) = Some why →
  references_Student (db w) sid = true →
  quiet 8 w →
  let before := serve GET ["admin"; "stats"] q0 b0 w in
  let booked := serve POST ["appointments"] q b (snd before) in
  let after := serve GET ["admin"; "stats"] q1 b1 (snd booked) in
  ∃ students professionals appointments,
    fst before = inr (Response 200 (Stats students professionals appointments))
    ∧ fst booked = inr (Response 201 (Message "Appointment created"))
    ∧ fst after = inr (Response 200 (Stats students professionals (appointments + 1))).
Proof.
  intros Hpresent Hsid Hkind Hwho Hday Hclock Hwhy Hstudent Hquiet. cbv zeta.
  rewrite (get_admin_stats_run q0 b0 w) by (by apply (quiet_le 3 8); [lia|]).
  cbn [fst snd]. rewrite serve_post_appointments.
  rewrite (post_appointments_run q b _ sid kind who day clock why);
    try done; [|by apply (quiet_World_drop 3 2), (Forall_take_le _ 5 8); [lia|]].
  cbn [fst snd db faults now]. rewrite !tail_as_drop, !drop_drop.
  rewrite get_admin_stats_run by (apply (quiet_World_drop 5 3 _ (faults w)); exact Hquiet).
  eexists _, _, _. split; [done|]. split; [done|].
  cbn [fst db with_Appointment with_Notification Appointment Student User insert_row rows].
  rewrite length_app. cbn [length]. do 3 f_equal. lia.
Qed.

Lemma booking_raises_the_appointment_count_on_the_seeded_store :
  let before := serve GET ["admin"; "stats"] ∅ ∅ fresh in
  let booked := serve POST ["appointments"] ∅
                  (booking 101 "Doctor" "Dr. Karim" "2026-01-12" "09:30" []) (snd before) in
  let after := serve GET ["admin"; "stats"] ∅ ∅ (snd booked) in
  ∃ students professionals appointments,
    fst before = inr (Response 200 (Stats students professionals appointments))
    ∧ fst booked = inr (Response 201 (Message "Appointment created"))
    ∧ fst after = inr (Response 200 (Stats students professionals (appointments + 1))).
Proof.
  apply (booking_raises_the_appointment_count ∅ ∅ ∅ _ ∅ ∅ fresh 101 "Doctor" "Dr. Karim"
           (Date 2026 1 12) (Time 9 30 0) None);
    try reflexivity; [repeat constructor | apply fresh_quiet].
Defined.

(** ** The recommendation of the student dashboard *)

(** X24. The dashboard praises ("You're doing well! ...") exactly when
    the first log of the answer has a stress level other than 3, a sleep
    quantity other than 1 and a mood rating above 2; a first log without
    mood rating is not praised, since [null <= 2] holds. *)
Theorem praise_needs_a_rated_good_day latest rest :
  recommendation (MoodRows (latest :: rest)) = Some doing_well
  ↔ Mood_log.stress_level latest ≠ Some 3
    ∧ Mood_log.sleep_quantity latest ≠ Some 1
    ∧ ∃ n, Mood_log.mood_rating latest = Some n ∧ 2 < n.
Proof.
  unfold recommendation, strictly_equals, at_most.
  destruct (Mood_log.stress_level latest) as [s|], (Mood_log.sleep_quantity latest) as [q|],
    (Mood_log.mood_rating latest) as [n|];
    repeat match goal with
           | |- context [?x =? ?y] => destruct (Z.eqb_spec x y)
           | |- context [?x <=? ?y] => destruct (Z.leb_spec x y)
           end; subst; cbn;
    (split;
     [ intros Htext;
       first [ discriminate Htext | repeat split; try congruence; eauto with lia ]
     | intros (Hs & Hq & k & Hn & Hk); simplify_eq; first [ done | lia | congruence ] ]).
Qed.

Lemma recommendation_for_the_seeded_log :
  Mood_log.stress_level (Mood_log.Row 1 101 (Date 2026 1 6) (Some 4) (Some 2) (Some 3)
                           (Some 2) (Some "Calm") (Some "Seed mood entry")) ≠ Some 3
  ∧ Mood_log.sleep_quantity (Mood_log.Row 1 101 (Date 2026 1 6) (Some 4) (Some 2) (Some 3)
                               (Some 2) (Some "Calm") (Some "Seed mood entry")) ≠ Some 1
  ∧ ∃ n, Mood_log.mood_rating (Mood_log.Row 1 101 (Date 2026 1 6) (Some 4) (Some 2) (Some 3)
                                 (Some 2) (Some "Calm") (Some "Seed mood entry")) = Some n
         ∧ 2 < n.
Proof.
  apply (praise_needs_a_rated_good_day _ []). reflexivity.
Defined.

Example recommendation_on_the_seeded_store : initRecommendations fresh = Some doing_well.
Proof. reflexivity. Qed.

Example recommendation_without_logs :
  initRecommendations (World (db fresh) [Some "ECONNRESET"] (now fresh)) = None
  ∧ recommendation (MoodRows []) = None.
Proof. split; reflexivity. Qed.

Lemma get_mood_log_run p sid q b w :
  sql_number (JStr p) = Some sid →
  quiet 1 w →
  serve GET ["mood-log"; p] q b w
  = (inr (Response 200
            (MoodRows
               (merge_sort by_log_date_desc
                  (filter (λ r, Mood_log.std_id r = sid) (rows (Mood_log (db w))))))),
     World (db w) (tail (faults w)) (now w)).
Proof.
  intros Hp Hquiet.
  rewrite serve_get_mood_log by eauto using numeral_nonempty.
  unfold get_mood_log, try_catch. cbv zeta.
  rewrite bind_run, (pool_execute_quiet _ 0) by done.
  rewrite param_of_singleton. unfold select_Mood_log. by rewrite Hp.
Qed.

(** The newest log comes first when it is newer than all the others. *)
Lemma newest_log_is_first (new : Mood_log.row) (old : list Mood_log.row) :
  Forall (λ r, date_lt (Mood_log.log_date r) (Mood_log.log_date new)) old →
  ∃ rest, merge_sort by_log_date_desc (old ++ [new]) = new :: rest.
Proof.
  intros Holder.
  pose proof (StronglySorted_merge_sort by_log_date_desc (old ++ [new])) as Hsorted.
  pose proof (merge_sort_Permutation by_log_date_desc (old ++ [new])) as Hperm.
  destruct (merge_sort by_log_date_desc (old ++ [new])) as [|h rest].
  - apply Permutation_nil_l in Hperm. by destruct old.
  - exists rest. f_equal.
    assert (h ∈ (old ++ [new])%list) as Hh by (rewrite <- Hperm; by left).
    apply elem_of_app in Hh as [Hh|Hh]; [|by apply list_elem_of_singleton in Hh].
    assert (new ∈ h :: rest) as Hnew by (rewrite Hperm; apply elem_of_app; right; by left).
    rewrite Forall_forall in Holder. specialize (Holder h Hh).
    apply elem_of_cons in Hnew as [->|Hnew]; [done|].
    apply StronglySorted_inv in Hsorted as [_ Hfirst].
    rewrite Forall_forall in Hfirst. specialize (Hfirst new Hnew).
    unfold by_log_date_desc, date_le in Hfirst. unfold date_lt in Holder. lia.
Qed.

(** X25. A mood log saved without a mood rating reads as a bad day: when
    student 101 posts a mood log that has only [std_id] and [log_date],
    for a date later than those of the student's other logs, and the
    store accepts it, the dashboard then shows the bad-day message and
    nothing else. *)
Theorem unrated_latest_log_reads_as_a_bad_day w iso day :
  parse_date iso = Some day →
  Forall (λ r, Mood_log.std_id r = STUDENT_ID → date_lt (Mood_log.log_date r) day)
    (rows (Mood_log (db w))) →
  references_Student (db w) STUDENT_ID = true →
  quiet 2 w →
  let posted := serve POST ["mood-log"] ∅
                  (object [("std_id", JNum STUDENT_ID); ("log_date", JStr iso)]) w in
  fst posted = inr (Response 201 (Message "Mood log saved"))
  ∧ initRecommendations (snd posted) = Some bad_day.
Proof.
  intros Hday Holder Hstudent Hquiet. cbv zeta.
  change (serve POST ["mood-log"] ∅ ?b) with (post_mood_log (Request ∅ ∅ b)).
  rewrite (post_mood_log_bare_run ∅ _ w STUDENT_ID day);
    [|reflexivity|reflexivity|exact Hday|by repeat constructor|done|by apply quiet_S].
  split; [done|]. cbn [snd]. unfold initRecommendations.
  rewrite (get_mood_log_run _ STUDENT_ID) by (reflexivity || by apply quiet_next).
  cbn [fst json db with_Mood_log Mood_log insert_row rows].
  rewrite filter_app, filter_cons_True, filter_nil by done.
  edestruct (newest_log_is_first
               (Mood_log.Row (auto_increment (Mood_log (db w))) STUDENT_ID day
                  None None None None None None)
               (filter (λ r, Mood_log.std_id r = STUDENT_ID) (rows (Mood_log (db w)))))
    as [rest ->]; [|done].
  apply Forall_forall. intros r [Hr Hin]%list_elem_of_filter.
  rewrite Forall_forall in Holder. by apply Holder.
Qed.

Lemma unrated_log_of_the_7th_reads_as_a_bad_day :
  let posted := serve POST ["mood-log"] ∅
                  (object [("std_id", JNum STUDENT_ID); ("log_date", JStr "2026-01-07")])
                  fresh in
  fst posted = inr (Response 201 (Message "Mood log saved"))
  ∧ initRecommendations (snd posted) = Some bad_day.
Proof.
  apply (unrated_latest_log_reads_as_a_bad_day fresh "2026-01-07" (Date 2026 1 7)).
  - reflexivity.
  - cbn. constructor; [|constructor]. intros _. unfold date_lt. cbn. lia.
  - reflexivity.
  - apply fresh_quiet.
Defined.
